(** * Raliux Guardian: risk analysis and gating engine

    A shallow embedding of the request-gating core of the repository:
    - [TorService]        (services/tor-service.js)
    - [IPAnalyzer]        (services/ip-analyzer.js)
    - [CacheService]      (services/cache-service.js, over node-cache)
    - [LogService]        (services/log-service.js)
    - [GuardianMiddleware] (middleware/guardian.js)
    - [ServiceIndex]      (services/index.js)

    JavaScript objects mutated in place become explicit state passing;
    calls that leave the process (axios, geoip-lite, the disk) are read
    from a [World] record, each as an [outcome] that either returns or
    throws.  Calls to the logger have no effect on any value the engine
    computes and are left out. *)

From Stdlib Require Import ZArith Ascii String List Bool Lia.
From Stdlib Require Import Sorting.Sorted Sorting.Permutation.
From stdpp Require Import base gmap sets list strings.

Local Open Scope Z_scope.
Local Open Scope string_scope.

(** ** JavaScript primitives used by the services *)

(** The result of a call that may throw (or, for a promise, reject). *)
Inductive outcome (A : Type) : Type :=
| Returned (a : A)
| Threw.
Arguments Returned {A} a.
Arguments Threw {A}.

Module JS.

(** Strings are sequences of code units; the services only ever see
    header values and plain-text lists, whose code units fit a byte. *)

(** [ToBoolean] on a string: only the empty string is falsy. *)
Definition truthy (s : string) : bool :=
  match s with
  | EmptyString => false
  | String _ _ => true
  end.

(** [a || b] on possibly-undefined strings. *)
Definition or_else (a b : option string) : option string :=
  match a with
  | Some s => if truthy s then a else b
  | None => b
  end.

(** White space as [String.prototype.trim] sees it, within one byte:
    TAB, LF, VT, FF, CR, SP and NBSP. *)
Definition is_space (c : ascii) : bool :=
  let n := nat_of_ascii c in
  ((9 <=? n)%nat && (n <=? 13)%nat) || (n =? 32)%nat || (n =? 160)%nat.

Fixpoint trimStart (s : string) : string :=
  match s with
  | EmptyString => EmptyString
  | String c r => if is_space c then trimStart r else s
  end.

Fixpoint trimEnd (s : string) : string :=
  match s with
  | EmptyString => EmptyString
  | String c r =>
      match trimEnd r with
      | EmptyString => if is_space c then EmptyString else String c EmptyString
      | r' => String c r'
      end
  end.

Definition trim (s : string) : string := trimEnd (trimStart s).

(** [s.split(sep)] for a one-character separator: always at least one
    piece, and a trailing separator yields a trailing empty piece. *)
Fixpoint split (sep : ascii) (s : string) : list string :=
  match s with
  | EmptyString => [EmptyString]
  | String c r =>
      if Ascii.eqb c sep then EmptyString :: split sep r
      else match split sep r with
           | p :: ps => String c p :: ps
           | [] => [String c EmptyString]
           end
  end.

Definition startsWith (s p : string) : bool := String.prefix p s.

(** Case folding of the [i] flag, restricted to the letters A-Z: a
    pattern made of ASCII letters matches no other code unit. *)
Definition fold_case (c : ascii) : ascii :=
  let n := nat_of_ascii c in
  if ((65 <=? n)%nat && (n <=? 90)%nat)%bool then ascii_of_nat (n + 32) else c.

Fixpoint fold_string (s : string) : string :=
  match s with
  | EmptyString => EmptyString
  | String c r => String (fold_case c) (fold_string r)
  end.

Fixpoint includes (s p : string) : bool :=
  String.prefix p s ||
  match s with
  | EmptyString => false
  | String _ r => includes r p
  end.

(** [/p/i.test(s)] for a literal pattern [p] of lower-case letters. *)
Definition test_i (p s : string) : bool := includes (fold_string s) p.

(** [Array.prototype.slice]: a negative index counts from the end, and
    both ends are clamped to the array. *)
Definition relIndex (len i : Z) : Z :=
  if (i <? 0)%Z then Z.max (len + i) 0 else Z.min i len.

Definition slice {A} (l : list A) (start final : Z) : list A :=
  let len := Z.of_nat (length l) in
  let k := relIndex len start in
  let f := relIndex len final in
  firstn (Z.to_nat (f - k)) (skipn (Z.to_nat k) l).

(** [l.slice(start)] *)
Definition sliceFrom {A} (l : list A) (start : Z) : list A :=
  slice l start (Z.of_nat (length l)).

End JS.

(** ** services/tor-service.js *)

Module TorService.

Record t : Type := mk {
  torExitNodes : gset string;
  lastUpdate : option Z
}.

(** [constructor()] *)
Definition init : t := {| torExitNodes := ∅; lastUpdate := None |}.

Definition updateInterval : Z := 3600000.

(** What the two remote lists answer when asked: the body of the
    response, or a rejected request (network error, timeout, status). *)
Record Feeds : Type := {
  torbulkexitlist : outcome string;
  mirrorList : outcome string
}.

(** [data.split('\n').map(line => line.trim())
        .filter(line => line && !line.startsWith('#'))] *)
Definition parseExitNodes (data : string) : list string :=
  List.filter (fun line => JS.truthy line && negb (JS.startsWith line "#"))
              (List.map JS.trim (JS.split "010"%char data)).

(** [exitNodes.forEach(ip => this.torExitNodes.add(ip))] *)
Definition addAll (nodes : list string) (s : gset string) : gset string :=
  List.fold_left (fun acc ip => {[ ip ]} ∪ acc) nodes s.

Definition knownExitNodes : list string :=
  [ "199.87.154.255"; "104.244.76.13"; "185.220.101.1";
    "199.195.249.84"; "185.220.100.240" ].

Definition loadHardcodedExitNodes (now : Z) (st : t) : t :=
  {| torExitNodes := addAll knownExitNodes (torExitNodes st);
     lastUpdate := Some now |}.

Definition loadFallbackExitNodes (now : Z) (f : Feeds) (st : t) : t :=
  match mirrorList f with
  | Returned data =>
      if JS.truthy data then
        {| torExitNodes := addAll (parseExitNodes data) (torExitNodes st);
           lastUpdate := Some now |}
      else st
  | Threw => loadHardcodedExitNodes now st
  end.

Definition updateTorExitNodes (now : Z) (f : Feeds) (st : t) : t :=
  match torbulkexitlist f with
  | Returned data =>
      if JS.truthy data then
        {| torExitNodes := addAll (parseExitNodes data) ∅;
           lastUpdate := Some now |}
      else st
  | Threw => loadFallbackExitNodes now f st
  end.

(** [!this.lastUpdate || Date.now() - this.lastUpdate > this.updateInterval] *)
Definition stale (now : Z) (st : t) : bool :=
  match lastUpdate st with
  | None => true
  | Some u => (u =? 0)%Z || (updateInterval <? now - u)%Z
  end.

Definition isTorExitNode (now : Z) (f : Feeds) (ip : string) (st : t)
  : bool * t :=
  let st' := if stale now st then updateTorExitNodes now f st else st in
  (bool_decide (ip ∈ torExitNodes st'), st').

Definition getExitNodeCount (st : t) : nat := size (torExitNodes st).

Definition getLastUpdateTime (st : t) : option Z := lastUpdate st.

End TorService.

(** ** services/ip-analyzer.js *)

Module IPAnalyzer.

(** The values [analysis.reason] takes ([null] is [None]). *)
Inductive Reason : Type :=
| TOR_EXIT_NODE
| VPN_PROXY_DETECTED
| BAD_IP_REPUTATION
| HIGH_RISK_SCORE
| ANALYSIS_ERROR.

Inductive RiskLevel : Type := HIGH | MEDIUM | LOW.

(** [geoip.lookup(ip)] when it finds the address. *)
Record Geo : Type := {
  geo_country : string;
  geo_region : string;
  geo_city : string;
  geo_timezone : string
}.

(** [parser.getResult()] of ua-parser-js, by the names it reports. *)
Record UAResult : Type := {
  ua_browser : string;
  ua_os : string;
  ua_device : string
}.

(** [response.data] of ip-api.com with [fields=proxy,hosting]. *)
Record ProxyInfo : Type := {
  proxy : bool;
  hosting : bool
}.

(** [response.data.data] of the AbuseIPDB check endpoint. *)
Record AbuseReport : Type := {
  abuseConfidencePercentage : Z;
  isWhitelisted : bool;
  countryCode : string
}.

(** The values stored under the properties of [analysis.details]. *)
Inductive Value : Type :=
| VBool (b : bool)
| VNum (n : Z)
| VStr (s : string)
| VObj (name : string).

(** [analysis.details] is an object used as a map from property names;
    a property that was never assigned is absent. *)
Abbreviation Details := (gmap string Value).

(** [ToBoolean] of [details.p]; an absent property reads [undefined]. *)
Definition truthy (v : option Value) : bool :=
  match v with
  | Some (VBool b) => b
  | Some (VNum n) => negb (n =? 0)%Z
  | Some (VStr s) => JS.truthy s
  | Some (VObj _) => true
  | None => false
  end.

Record Checks : Type := {
  geoip : bool;
  tor : bool;
  vpn : bool;
  userAgent : bool;
  reputation : bool
}.

Record Analysis : Type := {
  ip : string;
  isBlocked : bool;
  reason : option Reason;
  riskScore : Z;
  details : Details;
  checks : option Checks
}.

(** [process.env]: a variable that is not set is [None]. *)
Record Env : Type := {
  BLOCK_VPN_TOR : option string;
  STRICT_MODE : option string;
  IPAPI_KEY : option string;
  ABUSEIPDB_KEY : option string
}.

(** [process.env.X === 'true'] *)
Definition isTrue (v : option string) : bool :=
  match v with
  | Some s => String.eqb s "true"
  | None => false
  end.

(** [if (process.env.X)] *)
Definition isSet (v : option string) : bool :=
  match v with
  | Some s => JS.truthy s
  | None => false
  end.

(** The steps of the [try] block of [analyzeIP]. *)
Inductive Stage : Type :=
| StGeoIP | StTor | StVPN | StUserAgent | StReputation | StScore | StDecision.

(** Everything one evaluation reads from outside the analyzer.
    [escapes st] says that an exception leaves step [st] of the
    pipeline uncaught, for whatever unexpected reason: the collectors
    catch the failures of their own lookups, which are the [Threw]
    outcomes of the other fields. *)
Record World : Type := {
  now : Z;
  env : Env;
  geoLookup : string -> outcome (option Geo);
  torFeeds : TorService.Feeds;
  ipApi : string -> outcome (option ProxyInfo);
  abuseIpDb : string -> outcome (option AbuseReport);
  uaParser : string -> UAResult;
  escapes : Stage -> bool
}.

(** Assignments to the fields of the [analysis] object. *)
Definition addRisk (n : Z) (a : Analysis) : Analysis :=
  {| ip := ip a; isBlocked := isBlocked a; reason := reason a;
     riskScore := riskScore a + n; details := details a; checks := checks a |}.

Definition setRisk (n : Z) (a : Analysis) : Analysis :=
  {| ip := ip a; isBlocked := isBlocked a; reason := reason a;
     riskScore := n; details := details a; checks := checks a |}.

Definition setDetail (p : string) (v : Value) (a : Analysis) : Analysis :=
  {| ip := ip a; isBlocked := isBlocked a; reason := reason a;
     riskScore := riskScore a; details := <[ p := v ]> (details a);
     checks := checks a |}.

Definition setCheck (f : Checks -> Checks) (a : Analysis) : Analysis :=
  {| ip := ip a; isBlocked := isBlocked a; reason := reason a;
     riskScore := riskScore a; details := details a;
     checks := option_map f (checks a) |}.

Definition block (r : Reason) (a : Analysis) : Analysis :=
  {| ip := ip a; isBlocked := true; reason := Some r;
     riskScore := riskScore a; details := details a; checks := checks a |}.

Definition checkedGeoip (c : Checks) : Checks :=
  {| geoip := true; tor := tor c; vpn := vpn c;
     userAgent := userAgent c; reputation := reputation c |}.
Definition checkedTor (c : Checks) : Checks :=
  {| geoip := geoip c; tor := true; vpn := vpn c;
     userAgent := userAgent c; reputation := reputation c |}.
Definition checkedVpn (c : Checks) : Checks :=
  {| geoip := geoip c; tor := tor c; vpn := true;
     userAgent := userAgent c; reputation := reputation c |}.
Definition checkedUserAgent (c : Checks) : Checks :=
  {| geoip := geoip c; tor := tor c; vpn := vpn c;
     userAgent := true; reputation := reputation c |}.
Definition checkedReputation (c : Checks) : Checks :=
  {| geoip := geoip c; tor := tor c; vpn := vpn c;
     userAgent := userAgent c; reputation := true |}.

(** The object literal at the head of [analyzeIP]. *)
Definition newAnalysis (ip0 : string) : Analysis :=
  {| ip := ip0; isBlocked := false; reason := None; riskScore := 0;
     details := ∅;
     checks := Some {| geoip := false; tor := false; vpn := false;
                       userAgent := false; reputation := false |} |}.

(** The object literal returned by the [catch] of [analyzeIP]. *)
Definition analysisFailed (ip0 : string) : Analysis :=
  {| ip := ip0; isBlocked := true; reason := Some ANALYSIS_ERROR;
     riskScore := 100;
     details := {[ "error" := VStr "Analysis failed" ]};
     checks := None |}.

(** *** The collectors *)

Definition riskyCountries : list string := ["CN"; "RU"; "KP"; "IR"].

(** [riskyCountries.includes(c)] *)
Definition isRisky (c : string) : bool :=
  List.existsb (String.eqb c) riskyCountries.

Definition analyzeGeoIP (w : World) (ip0 : string) (a : Analysis) : Analysis :=
  match geoLookup w ip0 with
  | Returned (Some geo) =>
      let a := setDetail "country" (VStr (geo_country geo)) a in
      let a := setDetail "region" (VStr (geo_region geo)) a in
      let a := setDetail "city" (VStr (geo_city geo)) a in
      let a := setDetail "timezone" (VStr (geo_timezone geo)) a in
      let a := setCheck checkedGeoip a in
      if isRisky (geo_country geo)
      then setDetail "riskyCountry" (VBool true) (addRisk 30 a)
      else a
  | Returned None => a
  | Threw => a
  end.

Definition checkTorExitNode (w : World) (ip0 : string) (a : Analysis)
    (ts : TorService.t) : Analysis * TorService.t :=
  let '(isTor, ts) := TorService.isTorExitNode (now w) (torFeeds w) ip0 ts in
  let a := setDetail "isTor" (VBool isTor) a in
  let a := setCheck checkedTor a in
  if isTor && isTrue (BLOCK_VPN_TOR (env w))
  then (setDetail "torBlocked" (VBool true) (addRisk 80 a), ts)
  else (a, ts).

Definition checkVPNProxy (w : World) (ip0 : string) (a : Analysis) : Analysis :=
  if isSet (IPAPI_KEY (env w)) then
    match ipApi w ip0 with
    | Returned (Some data) =>
        let a := setDetail "isProxy" (VBool (proxy data)) a in
        let a := setDetail "isHosting" (VBool (hosting data)) a in
        let a := setCheck checkedVpn a in
        if (proxy data || hosting data) && isTrue (BLOCK_VPN_TOR (env w))
        then setDetail "vpnBlocked" (VBool true) (addRisk 60 a)
        else a
    | Returned None => a
    | Threw => a
    end
  else a.

Definition botPatterns : list string :=
  ["bot"; "crawler"; "spider"; "scraper"; "curl"; "wget"; "python"; "java"].

(** [botPatterns.some(pattern => pattern.test(userAgent))] *)
Definition looksLikeBot (ua : string) : bool :=
  List.existsb (fun p => JS.test_i p ua) botPatterns.

(** [!userAgent || userAgent.length < 10] *)
Definition emptyOrShort (ua : string) : bool :=
  negb (JS.truthy ua) || (Z.of_nat (String.length ua) <? 10)%Z.

Definition analyzeUserAgent (w : World) (ua : string) (a : Analysis) : Analysis :=
  let result := uaParser w ua in
  let a := setDetail "browser" (VObj (ua_browser result)) a in
  let a := setDetail "os" (VObj (ua_os result)) a in
  let a := setDetail "device" (VObj (ua_device result)) a in
  let a := setCheck checkedUserAgent a in
  let a := if emptyOrShort ua
           then setDetail "suspiciousUA" (VStr "Empty or too short") (addRisk 20 a)
           else a in
  if looksLikeBot ua
  then setDetail "possibleBot" (VBool true) (addRisk 15 a)
  else a.

Definition checkIPReputation (w : World) (ip0 : string) (a : Analysis) : Analysis :=
  match abuseIpDb w ip0 with
  | Returned (Some report) =>
      let c := abuseConfidencePercentage report in
      let a := setDetail "abuseConfidence" (VNum c) a in
      let a := setDetail "isWhitelisted" (VBool (isWhitelisted report)) a in
      let a := setCheck checkedReputation a in
      if (25 <? c)%Z
      then setDetail "badReputation" (VBool true) (addRisk (Z.min c 50) a)
      else a
  | Returned None => a
  | Threw => a
  end.

(** *** Score and decision *)

Definition calculateRiskScore (a : Analysis) : Analysis :=
  let a := setRisk (Z.min (riskScore a) 100) a in
  if (70 <=? riskScore a)%Z then setDetail "riskLevel" (VStr "HIGH") a
  else if (40 <=? riskScore a)%Z then setDetail "riskLevel" (VStr "MEDIUM") a
  else setDetail "riskLevel" (VStr "LOW") a.

Definition threshold (e : Env) : Z :=
  if isTrue (STRICT_MODE e) then 40 else 70.

Definition makeBlockDecision (w : World) (a : Analysis) : Analysis :=
  if (threshold (env w) <=? riskScore a)%Z then
    if truthy (details a !! "isTor") then block TOR_EXIT_NODE a
    else if truthy (details a !! "vpnBlocked") then block VPN_PROXY_DETECTED a
    else if truthy (details a !! "badReputation") then block BAD_IP_REPUTATION a
    else block HIGH_RISK_SCORE a
  else a.

(** *** The pipeline

    The [try] block of [analyzeIP] runs its steps in order over the
    shared Tor service; an exception that leaves a step ends the block
    and keeps what the Tor service has become by then. *)

Definition Pipeline (A : Type) : Type :=
  TorService.t -> outcome A * TorService.t.

Definition ret {A} (a : A) : Pipeline A := fun ts => (Returned a, ts).

Definition bind {A B} (m : Pipeline A) (k : A -> Pipeline B) : Pipeline B :=
  fun ts =>
    match m ts with
    | (Returned a, ts') => k a ts'
    | (Threw, ts') => (Threw, ts')
    end.

Notation "'run' x <- m 'in' k" := (bind m (fun x => k))
  (at level 10, x name, m at level 100, k at level 200, only parsing).

(** Entering step [st]: the exception that escapes it, if any. *)
Definition enter (w : World) (st : Stage) : Pipeline unit :=
  fun ts => if escapes w st then (Threw, ts) else (Returned tt, ts).

Definition pure (w : World) (st : Stage) (f : Analysis -> Analysis)
    (a : Analysis) : Pipeline Analysis :=
  run _ <- enter w st in ret (f a).

Definition withTor (w : World) (st : Stage)
    (f : Analysis -> TorService.t -> Analysis * TorService.t)
    (a : Analysis) : Pipeline Analysis :=
  run _ <- enter w st in
  fun ts => let '(a', ts') := f a ts in (Returned a', ts').

Definition tryAnalyzeIP (w : World) (ip0 ua : string) : Pipeline Analysis :=
  run a <- pure w StGeoIP (analyzeGeoIP w ip0) (newAnalysis ip0) in
  run a <- withTor w StTor (checkTorExitNode w ip0) a in
  run a <- pure w StVPN (checkVPNProxy w ip0) a in
  run a <- pure w StUserAgent (analyzeUserAgent w ua) a in
  run a <- (if isSet (ABUSEIPDB_KEY (env w))
           then pure w StReputation (checkIPReputation w ip0) a
           else ret a) in
  run a <- pure w StScore calculateRiskScore a in
  pure w StDecision (makeBlockDecision w) a.

(** [analyzeIP(ip, userAgent = '')]: an omitted user agent is [None]. *)
Definition analyzeIP (w : World) (ip0 : string) (userAgent0 : option string)
    (ts : TorService.t) : Analysis * TorService.t :=
  let ua := match userAgent0 with Some s => s | None => "" end in
  match tryAnalyzeIP w ip0 ua ts with
  | (Returned a, ts') => (a, ts')
  | (Threw, ts') => (analysisFailed ip0, ts')
  end.

(** *** The VPN range list

    [this.vpnRanges]: filled once by [initialize]; no collector reads
    it. *)

(** [response.data.split('\n').filter(line => line.trim())] *)
Definition vpnLines (data : string) : list string :=
  List.filter (fun line => JS.truthy (JS.trim line))
              (JS.split "010"%char data).

(** [loadVPNRanges()], given what the list's host answers. *)
Definition loadVPNRanges (feed : outcome string) (vpnRanges : gset string)
  : gset string :=
  match feed with
  | Returned data =>
      if JS.truthy data
      then List.fold_left (fun acc range => {[ JS.trim range ]} ∪ acc)
                          (vpnLines data) vpnRanges
      else vpnRanges
  | Threw => vpnRanges
  end.

(** *** What each collector adds to the score

    The points of one evaluation, collector by collector, read off the
    branches above; [score_of_collect] relates their sum to the code. *)

Definition geoPoints (w : World) (ip0 : string) : Z :=
  match geoLookup w ip0 with
  | Returned (Some geo) => if isRisky (geo_country geo) then 30 else 0
  | _ => 0
  end.

Definition torPoints (w : World) (ip0 : string) (ts : TorService.t) : Z :=
  if fst (TorService.isTorExitNode (now w) (torFeeds w) ip0 ts)
     && isTrue (BLOCK_VPN_TOR (env w))
  then 80 else 0.

Definition vpnPoints (w : World) (ip0 : string) : Z :=
  if isSet (IPAPI_KEY (env w)) then
    match ipApi w ip0 with
    | Returned (Some data) =>
        if (proxy data || hosting data) && isTrue (BLOCK_VPN_TOR (env w))
        then 60 else 0
    | _ => 0
    end
  else 0.

Definition userAgentPoints (ua : string) : Z :=
  (if emptyOrShort ua then 20 else 0) + (if looksLikeBot ua then 15 else 0).

Definition reputationPoints (w : World) (ip0 : string) : Z :=
  match abuseIpDb w ip0 with
  | Returned (Some report) =>
      let c := abuseConfidencePercentage report in
      if (25 <? c)%Z then Z.min c 50 else 0
  | _ => 0
  end.

(** A lookup that returned a body. *)
Definition answered {A} (o : outcome (option A)) : bool :=
  match o with
  | Returned (Some _) => true
  | _ => false
  end.

(** The five collectors in sequence, when no exception escapes. *)
Definition collect (w : World) (ip0 ua : string) (ts : TorService.t)
  : Analysis * TorService.t :=
  let a := analyzeGeoIP w ip0 (newAnalysis ip0) in
  let '(a, ts) := checkTorExitNode w ip0 a ts in
  let a := checkVPNProxy w ip0 a in
  let a := analyzeUserAgent w ua a in
  let a := if isSet (ABUSEIPDB_KEY (env w))
           then checkIPReputation w ip0 a else a in
  (a, ts).

(** The steps the pipeline enters for a given environment. *)
Definition stagesOf (w : World) : list Stage :=
  [StGeoIP; StTor; StVPN; StUserAgent]
  ++ (if isSet (ABUSEIPDB_KEY (env w)) then [StReputation] else [])
  ++ [StScore; StDecision].

(** Some step of the pipeline lets an exception out. *)
Definition pipelineThrows (w : World) : bool :=
  List.existsb (escapes w) (stagesOf w).

End IPAnalyzer.

(** ** node-cache, as services/cache-service.js uses it

    The store of [new NodeCache({ stdTTL: 300, checkperiod: 120,
    useClones: false })]: each key holds the value itself and the time
    [t] (in ms) after which it is expired, [0] for never.  The periodic
    sweep only deletes keys that [get] would already report missing. *)

Module NodeCache.

Record Entry : Type := {
  v : IPAnalyzer.Analysis;
  t : Z
}.

Abbreviation t_store := (gmap string Entry).

(** [data.t !== 0 && data.t < Date.now()] *)
Definition expired (now : Z) (e : Entry) : bool :=
  negb (t e =? 0)%Z && (t e <? now)%Z.

(** [get(key)]: an expired key is deleted and reads [undefined]. *)
Definition get (now : Z) (key : string) (data : t_store)
  : option IPAnalyzer.Analysis * t_store :=
  match data !! key with
  | Some e => if expired now e then (None, delete key data)
              else (Some (v e), data)
  | None => (None, data)
  end.

(** [set(key, value, ttl)], [ttl] in seconds. *)
Definition set (now : Z) (key : string) (value : IPAnalyzer.Analysis)
    (ttl : Z) (data : t_store) : t_store :=
  let livetime := if (ttl =? 0)%Z then 0 else now + ttl * 1000 in
  <[ key := {| v := value; t := livetime |} ]> data.

(** [del(key)]: the number of keys deleted, expired or not. *)
Definition del (key : string) (data : t_store) : Z * t_store :=
  match data !! key with
  | Some _ => (1, delete key data)
  | None => (0, data)
  end.

Definition flushAll (data : t_store) : t_store := ∅.

End NodeCache.

(** ** services/cache-service.js *)

Module CacheService.

Record Stats : Type := {
  hits : Z;
  misses : Z;
  sets : Z
}.

(** [this.cache] is [null] until [initialize()] has run. *)
Record t : Type := {
  cache : option NodeCache.t_store;
  stats : Stats
}.

Definition init : t :=
  {| cache := None; stats := {| hits := 0; misses := 0; sets := 0 |} |}.

Definition initialize (st : t) : t :=
  {| cache := Some ∅; stats := stats st |}.

(** [get(key)]: on a store that is still [null] the call throws inside
    the [try] and the handler answers [null]. *)
Definition get (now : Z) (key : string) (st : t)
  : option IPAnalyzer.Analysis * t :=
  match cache st with
  | None => (None, st)
  | Some data =>
      match NodeCache.get now key data with
      | (Some value, data') =>
          (Some value,
           {| cache := Some data';
              stats := {| hits := hits (stats st) + 1;
                          misses := misses (stats st);
                          sets := sets (stats st) |} |})
      | (None, data') =>
          (None,
           {| cache := Some data';
              stats := {| hits := hits (stats st);
                          misses := misses (stats st) + 1;
                          sets := sets (stats st) |} |})
      end
  end.

(** [set(key, value, ttl = 300)]; the ['set'] listener counts it. *)
Definition set (now : Z) (key : string) (value : IPAnalyzer.Analysis)
    (ttl : Z) (st : t) : bool * t :=
  match cache st with
  | None => (false, st)
  | Some data =>
      (true,
       {| cache := Some (NodeCache.set now key value ttl data);
          stats := {| hits := hits (stats st);
                      misses := misses (stats st);
                      sets := sets (stats st) + 1 |} |})
  end.

Definition del (key : string) (st : t) : bool * t :=
  match cache st with
  | None => (false, st)
  | Some data =>
      let '(deleted, data') := NodeCache.del key data in
      ((0 <? deleted)%Z, {| cache := Some data'; stats := stats st |})
  end.

Definition clear (st : t) : bool * t :=
  match cache st with
  | None => (false, st)
  | Some data =>
      (true, {| cache := Some (NodeCache.flushAll data); stats := stats st |})
  end.

(** [cleanup()]: on a store that is still [null] the call throws
    before the counters are reset. *)
Definition cleanup (st : t) : t :=
  match cache st with
  | None => st
  | Some data =>
      {| cache := Some (NodeCache.flushAll data);
         stats := {| hits := 0; misses := 0; sets := 0 |} |}
  end.

End CacheService.

(** ** services/log-service.js *)

Module LogService.

Record LogEntry : Type := {
  timestamp : Z;
  requestId : string;
  ip : string;
  userAgent : string;
  method : string;
  url : string;
  analysis : IPAnalyzer.Analysis;
  blocked : bool;
  riskScore : Z;
  reason : option IPAnalyzer.Reason
}.

(** [requestLogs] is the buffer in memory; [files] are the per-day JSON
    arrays under the log directory, by file name. *)
Record t : Type := {
  requestLogs : list LogEntry;
  files : gmap string (list LogEntry)
}.

Definition init : t := {| requestLogs := []; files := ∅ |}.

Definition maxLogsInMemory : nat := 1000.

(** What the disk and the calendar say during one call. *)
Record Disk : Type := {
  today : string;
  writeFails : bool
}.

Definition logFile (d : Disk) : string :=
  "requests-" ++ today d ++ ".json".

Definition flushLogsToDisk (d : Disk) (st : t) : t :=
  match requestLogs st with
  | [] => st
  | _ =>
      let existingLogs :=
        match files st !! logFile d with
        | Some logs => logs
        | None => []
        end in
      if writeFails d then st
      else {| requestLogs := [];
              files := <[ logFile d := (existingLogs ++ requestLogs st)%list ]> (files st) |}
  end.

(** The argument object of [logRequest]. *)
Record RequestData : Type := {
  rd_requestId : string;
  rd_ip : string;
  rd_userAgent : string;
  rd_analysis : IPAnalyzer.Analysis;
  rd_timestamp : Z;
  rd_url : string;
  rd_method : string
}.

Definition logEntry (r : RequestData) : LogEntry :=
  {| timestamp := rd_timestamp r;
     requestId := rd_requestId r;
     ip := rd_ip r;
     userAgent := rd_userAgent r;
     method := rd_method r;
     url := rd_url r;
     analysis := rd_analysis r;
     blocked := IPAnalyzer.isBlocked (rd_analysis r);
     riskScore := IPAnalyzer.riskScore (rd_analysis r);
     reason := IPAnalyzer.reason (rd_analysis r) |}.

Definition logRequest (d : Disk) (r : RequestData) (st : t) : t :=
  let st := {| requestLogs := (requestLogs st ++ [logEntry r])%list;
               files := files st |} in
  if (maxLogsInMemory <=? length (requestLogs st))%nat
  then flushLogsToDisk d st
  else st.

(** [.sort((a, b) => new Date(b.timestamp) - new Date(a.timestamp))]:
    newest first; the sort is stable, so entries of equal time keep
    their order. *)
Fixpoint insertNewestFirst (e : LogEntry) (l : list LogEntry) : list LogEntry :=
  match l with
  | [] => [e]
  | x :: r =>
      if (timestamp e <? timestamp x)%Z then x :: insertNewestFirst e r
      else e :: l
  end.

Fixpoint sortNewestFirst (l : list LogEntry) : list LogEntry :=
  match l with
  | [] => []
  | e :: r => insertNewestFirst e (sortNewestFirst r)
  end.

(** [getRecentLogs(limit = 100)]; the files hold the arrays the service
    wrote itself, which always parse. *)
Definition getRecentLogs (d : Disk) (limit : Z) (st : t) : list LogEntry :=
  let recentFromMemory := JS.sliceFrom (requestLogs st) (- limit) in
  let recentFromDisk :=
    match files st !! logFile d with
    | Some allLogs => JS.sliceFrom allLogs (- limit)
    | None => []
    end in
  JS.slice (sortNewestFirst (recentFromDisk ++ recentFromMemory)%list) 0 limit.

(** [obj[k] = (obj[k] || 0) + 1] over a list of keys. *)
Definition tally (keys : list string) : gmap string nat :=
  List.fold_left
    (fun m k => <[ k := (match m !! k with Some n => n | None => 0 end + 1)%nat ]> m)
    keys ∅.

(** The property name [log.reason] turns into. *)
Definition reasonKey (r : option IPAnalyzer.Reason) : string :=
  match r with
  | Some IPAnalyzer.TOR_EXIT_NODE => "TOR_EXIT_NODE"
  | Some IPAnalyzer.VPN_PROXY_DETECTED => "VPN_PROXY_DETECTED"
  | Some IPAnalyzer.BAD_IP_REPUTATION => "BAD_IP_REPUTATION"
  | Some IPAnalyzer.HIGH_RISK_SCORE => "HIGH_RISK_SCORE"
  | Some IPAnalyzer.ANALYSIS_ERROR => "ANALYSIS_ERROR"
  | None => "null"
  end.

(** [log.analysis?.details?.country || 'Unknown']; [details.country]
    is only ever assigned [geo.country], a string. *)
Definition countryKey (e : LogEntry) : string :=
  match IPAnalyzer.details (analysis e) !! "country" with
  | Some (IPAnalyzer.VStr c) => if JS.truthy c then c else "Unknown"
  | _ => "Unknown"
  end.

Record LastHour : Type := {
  total : nat;
  lh_blocked : nat
}.

(** The object [getStats] returns.  [avgRiskScore] is a quotient, kept
    as the two integers the code divides ([0] is [0/1]). *)
Record Statistics : Type := {
  totalRequests : nat;
  blockedRequests : nat;
  allowedRequests : nat;
  avgRiskScore : Z * nat;
  topBlockReasons : gmap string nat;
  topCountries : gmap string nat;
  lastHour : LastHour
}.

Definition statsOf (now : Z) (recentLogs : list LogEntry) : Statistics :=
  let blockedLogs := List.filter (fun log => blocked log) recentLogs in
  match recentLogs with
  | [] =>
      {| totalRequests := 0;
         blockedRequests := length blockedLogs;
         allowedRequests := length (List.filter (fun log => negb (blocked log)) recentLogs);
         avgRiskScore := (0, 1%nat);
         topBlockReasons := ∅;
         topCountries := ∅;
         lastHour := {| total := 0; lh_blocked := 0 |} |}
  | _ =>
      let oneHourAgo := now - 3600000 in
      let lastHourLogs :=
        List.filter (fun log => (oneHourAgo <? timestamp log)%Z) recentLogs in
      {| totalRequests := length recentLogs;
         blockedRequests := length blockedLogs;
         allowedRequests := length (List.filter (fun log => negb (blocked log)) recentLogs);
         avgRiskScore :=
           (List.fold_left (fun sum log => sum + riskScore log) recentLogs 0,
            length recentLogs);
         topBlockReasons := tally (List.map (fun log => reasonKey (reason log)) blockedLogs);
         topCountries := tally (List.map countryKey recentLogs);
         lastHour :=
           {| total := length lastHourLogs;
              lh_blocked := length (List.filter (fun log => blocked log) lastHourLogs) |} |}
  end.

(** What today's file and the buffer hold together, oldest first. *)
Definition heldToday (d : Disk) (st : t) : list LogEntry :=
  (match files st !! logFile d with
   | Some logs => logs
   | None => []
   end ++ requestLogs st)%list.

(** The order of [getRecentLogs]: no entry is older than one before. *)
Definition newerFirst (a b : LogEntry) : Prop := (timestamp b <= timestamp a)%Z.

(** [getStats()], read at time [now]. *)
Definition getStats (d : Disk) (now : Z) (st : t) : Statistics :=
  statsOf now (getRecentLogs d 1000 st).

End LogService.

(** ** middleware/guardian.js *)

Module GuardianMiddleware.

Record Request : Type := {
  headers : gmap string string;
  connection_remoteAddress : option string;
  socket_remoteAddress : option string;
  req_ip : option string;
  req_url : string;
  req_method : string
}.

(** The two answers of [handleResult], by status code. *)
Inductive Response : Type :=
| Status403 (reason : option IPAnalyzer.Reason) (riskScore : Z)
            (requestId : string)
| Status418 (riskScore : Z) (details : IPAnalyzer.Details)
            (requestId : string).

(** The singleton services the middleware requires. *)
Record Services : Type := {
  torService : TorService.t;
  cacheService : CacheService.t;
  logService : LogService.t
}.

(** What one request reads from outside: the analyzer's world, the
    disk, and the identifier [generateRequestId()] draws. *)
Record Host : Type := {
  world : IPAnalyzer.World;
  disk : LogService.Disk;
  freshRequestId : string
}.

(** [h?.split(',')[0]?.trim()] *)
Definition firstForwarded (h : option string) : option string :=
  match h with
  | Some s =>
      match JS.split "," s with
      | p :: _ => Some (JS.trim p)
      | [] => None
      end
  | None => None
  end.

Definition getClientIP (req : Request) : string :=
  match JS.or_else (firstForwarded (headers req !! "x-forwarded-for"))
        (JS.or_else (headers req !! "x-real-ip")
        (JS.or_else (connection_remoteAddress req)
        (JS.or_else (socket_remoteAddress req)
        (JS.or_else (req_ip req) (Some "127.0.0.1"))))) with
  | Some s => s
  | None => "127.0.0.1"
  end.

(** [`analysis:${clientIP}`] *)
Definition cacheKey (clientIP : string) : string := "analysis:" ++ clientIP.

Definition handleResult (a : IPAnalyzer.Analysis) (requestId : string)
  : Response :=
  if IPAnalyzer.isBlocked a
  then Status403 (IPAnalyzer.reason a) (IPAnalyzer.riskScore a) requestId
  else Status418 (IPAnalyzer.riskScore a) (IPAnalyzer.details a) requestId.

Definition analyze (h : Host) (req : Request) (sv : Services)
  : Response * Services :=
  let clientIP := getClientIP req in
  let userAgent :=
    match JS.or_else (headers req !! "user-agent") (Some "") with
    | Some s => s
    | None => ""
    end in
  let requestId := freshRequestId h in
  let now := IPAnalyzer.now (world h) in
  let '(cachedResult, cs) :=
    CacheService.get now (cacheKey clientIP) (cacheService sv) in
  match cachedResult with
  | Some cached =>
      (handleResult cached requestId,
       {| torService := torService sv; cacheService := cs;
          logService := logService sv |})
  | None =>
      let '(analysis, ts) :=
        IPAnalyzer.analyzeIP (world h) clientIP (Some userAgent) (torService sv) in
      let '(_, cs) := CacheService.set now (cacheKey clientIP) analysis 300 cs in
      let ls :=
        LogService.logRequest (disk h)
          {| LogService.rd_requestId := requestId;
             LogService.rd_ip := clientIP;
             LogService.rd_userAgent := userAgent;
             LogService.rd_analysis := analysis;
             LogService.rd_timestamp := now;
             LogService.rd_url := req_url req;
             LogService.rd_method := req_method req |}
          (logService sv) in
      (handleResult analysis requestId,
       {| torService := ts; cacheService := cs; logService := ls |})
  end.

(** [req.headers['user-agent'] || ''] and the object handed to
    [logRequest], named for the statements below. *)
Definition userAgentOf (req : Request) : string :=
  match JS.or_else (headers req !! "user-agent") (Some "") with
  | Some s => s
  | None => ""
  end.

Definition requestData (h : Host) (req : Request) (a : IPAnalyzer.Analysis)
  : LogService.RequestData :=
  {| LogService.rd_requestId := freshRequestId h;
     LogService.rd_ip := getClientIP req;
     LogService.rd_userAgent := userAgentOf req;
     LogService.rd_analysis := a;
     LogService.rd_timestamp := IPAnalyzer.now (world h);
     LogService.rd_url := req_url req;
     LogService.rd_method := req_method req |}.

End GuardianMiddleware.

(** ** services/index.js *)

Module ServiceIndex.

(** [initializeServices()]: the cache is created, the Tor list is
    fetched once, and the log service starts with an empty buffer.
    [ipAnalyzer.initialize()] only fills the VPN range list. *)
Definition initializeServices (now : Z) (f : TorService.Feeds)
  : GuardianMiddleware.Services :=
  {| GuardianMiddleware.torService :=
       TorService.updateTorExitNodes now f TorService.init;
     GuardianMiddleware.cacheService := CacheService.initialize CacheService.init;
     GuardianMiddleware.logService := LogService.init |}.

End ServiceIndex.

(** ** Sample worlds and requests *)

Module Sample.

Import IPAnalyzer.

Definition noEnv : Env :=
  {| BLOCK_VPN_TOR := None; STRICT_MODE := None;
     IPAPI_KEY := None; ABUSEIPDB_KEY := None |}.

(** Remote lists answer with two exit nodes; nothing else is known
    about any address and no exception escapes. *)
Definition quiet (e : Env) : World :=
  {| now := 1700000000000;
     env := e;
     geoLookup := fun _ => Returned None;
     torFeeds :=
       {| TorService.torbulkexitlist :=
            Returned ("# exits" ++ String "010" ("185.220.101.1" ++ String "010" "185.220.101.2"));
          TorService.mirrorList := Threw |};
     ipApi := fun _ => Threw;
     abuseIpDb := fun _ => Threw;
     uaParser := fun _ => {| ua_browser := "Firefox"; ua_os := "Linux"; ua_device := "" |};
     escapes := fun _ => false |}.

(** The reputation service reports confidence [c] for every address. *)
Definition reported (c : Z) (e : Env) : World :=
  {| now := now (quiet e); env := e; geoLookup := geoLookup (quiet e);
     torFeeds := torFeeds (quiet e); ipApi := ipApi (quiet e);
     abuseIpDb := fun _ =>
       Returned (Some {| abuseConfidencePercentage := c;
                         isWhitelisted := false; countryCode := "NL" |});
     uaParser := uaParser (quiet e); escapes := escapes (quiet e) |}.

(** ip-api.com flags every address as a proxy. *)
Definition proxied (e : Env) : World :=
  {| now := now (quiet e); env := e; geoLookup := geoLookup (quiet e);
     torFeeds := torFeeds (quiet e);
     ipApi := fun _ => Returned (Some {| proxy := true; hosting := false |});
     abuseIpDb := abuseIpDb (quiet e);
     uaParser := uaParser (quiet e); escapes := escapes (quiet e) |}.

(** An exception leaves the scoring step. *)
Definition broken (e : Env) : World :=
  {| now := now (quiet e); env := e; geoLookup := geoLookup (quiet e);
     torFeeds := torFeeds (quiet e); ipApi := ipApi (quiet e);
     abuseIpDb := abuseIpDb (quiet e); uaParser := uaParser (quiet e);
     escapes := fun st => match st with StScore => true | _ => false end |}.

(** Every lookup throws and both Tor lists are down, with all keys and
    both policies set; no exception escapes a step. *)
Definition allDown : World :=
  {| now := 1700000000000;
     env := {| BLOCK_VPN_TOR := Some "true"; STRICT_MODE := Some "true";
               IPAPI_KEY := Some "k3y"; ABUSEIPDB_KEY := Some "k3y" |};
     geoLookup := fun _ => Threw;
     torFeeds := {| TorService.torbulkexitlist := Threw;
                    TorService.mirrorList := Threw |};
     ipApi := fun _ => Threw;
     abuseIpDb := fun _ => Threw;
     uaParser := fun _ => {| ua_browser := "Firefox"; ua_os := "Linux"; ua_device := "" |};
     escapes := fun _ => false |}.

Definition strictWithKey : Env :=
  {| BLOCK_VPN_TOR := None; STRICT_MODE := Some "true";
     IPAPI_KEY := None; ABUSEIPDB_KEY := Some "k3y" |}.

Definition normalWithKey : Env :=
  {| BLOCK_VPN_TOR := None; STRICT_MODE := None;
     IPAPI_KEY := None; ABUSEIPDB_KEY := Some "k3y" |}.

Definition blockAll : Env :=
  {| BLOCK_VPN_TOR := Some "true"; STRICT_MODE := None;
     IPAPI_KEY := Some "k3y"; ABUSEIPDB_KEY := None |}.

(** A Tor service that already holds a snapshot of one address. *)
Definition loaded : TorService.t :=
  {| TorService.torExitNodes := {[ "198.51.100.1" ]};
     TorService.lastUpdate := Some 1699990000000 |}.

Definition primaryDown (mirror : outcome string) : TorService.Feeds :=
  {| TorService.torbulkexitlist := Threw; TorService.mirrorList := mirror |}.

Definition firefox : string :=
  "Mozilla/5.0 (X11; Linux x86_64; rv:120.0) Gecko/20100101 Firefox/120.0".

(** The same world, read at another time. *)
Definition at_time (t : Z) (w : World) : World :=
  {| now := t; env := env w; geoLookup := geoLookup w; torFeeds := torFeeds w;
     ipApi := ipApi w; abuseIpDb := abuseIpDb w; uaParser := uaParser w;
     escapes := escapes w |}.

Definition host (w : World) (requestId : string) : GuardianMiddleware.Host :=
  {| GuardianMiddleware.world := w;
     GuardianMiddleware.disk :=
       {| LogService.today := "2023-11-14"; LogService.writeFails := false |};
     GuardianMiddleware.freshRequestId := requestId |}.

(** A request forwarded for 203.0.113.7 with the given user agent. *)
Definition request (ua : string) : GuardianMiddleware.Request :=
  {| GuardianMiddleware.headers :=
       {[ "x-forwarded-for" := "203.0.113.7, 10.0.0.1"; "user-agent" := ua ]};
     GuardianMiddleware.connection_remoteAddress := Some "10.0.0.1";
     GuardianMiddleware.socket_remoteAddress := Some "10.0.0.1";
     GuardianMiddleware.req_ip := None;
     GuardianMiddleware.req_url := "/verify";
     GuardianMiddleware.req_method := "GET" |}.

(** The services after [initializeServices], before any request. *)
Definition started : GuardianMiddleware.Services :=
  {| GuardianMiddleware.torService :=
       TorService.updateTorExitNodes 1699999990000 (torFeeds (quiet noEnv))
         TorService.init;
     GuardianMiddleware.cacheService := CacheService.initialize CacheService.init;
     GuardianMiddleware.logService := LogService.init |}.

End Sample.

(** * Properties *)

(** ** Sanity checks of the embedding on concrete inputs *)

Example parseExitNodes_skips_comments_and_blanks :
  TorService.parseExitNodes
    ("# exits" ++ String "010" (" 1.2.3.4 " ++ String "013"
       (String "010" (String "010" "5.6.7.8"))))
  = ["1.2.3.4"; "5.6.7.8"].
Proof. reflexivity. Qed.

Example split_keeps_trailing_piece :
  JS.split "," "a,b," = ["a"; "b"; ""].
Proof. reflexivity. Qed.

Example userAgentPoints_samples :
  IPAnalyzer.userAgentPoints "" = 20
  /\ IPAnalyzer.userAgentPoints "curl" = 35
  /\ IPAnalyzer.userAgentPoints "curl/7.68.0" = 15
  /\ IPAnalyzer.userAgentPoints "PYTHON-requests/2.31" = 15
  /\ IPAnalyzer.userAgentPoints Sample.firefox = 0.
Proof. repeat split; reflexivity. Qed.

Example getClientIP_prefers_forwarded_header :
  GuardianMiddleware.getClientIP (Sample.request "curl") = "203.0.113.7".
Proof. vm_compute. reflexivity. Qed.

Example first_refresh_falls_back_to_constants :
  TorService.isTorExitNode 5 (Sample.primaryDown Threw) "104.244.76.13" TorService.init
  = (true, TorService.loadHardcodedExitNodes 5 TorService.init).
Proof. vm_compute. reflexivity. Qed.

(** ** The analyzer *)

Section AnalyzerFacts.

Import IPAnalyzer.

Variable w : World.

Ltac collector :=
  intros;
  repeat match goal with
         | |- context [match ?x with _ => _ end] => destruct x eqn:?
         | |- context [if ?b then _ else _] => destruct b eqn:?
         end;
  simpl in *; try reflexivity; try lia.

(** *** Frame: collectors never decide *)

Lemma analyzeGeoIP_decision ip0 a :
  isBlocked (analyzeGeoIP w ip0 a) = isBlocked a
  /\ reason (analyzeGeoIP w ip0 a) = reason a.
Proof. unfold analyzeGeoIP. split; collector. Qed.

Lemma checkTorExitNode_decision ip0 a ts :
  isBlocked (fst (checkTorExitNode w ip0 a ts)) = isBlocked a
  /\ reason (fst (checkTorExitNode w ip0 a ts)) = reason a.
Proof. unfold checkTorExitNode. split; collector. Qed.

Lemma checkVPNProxy_decision ip0 a :
  isBlocked (checkVPNProxy w ip0 a) = isBlocked a
  /\ reason (checkVPNProxy w ip0 a) = reason a.
Proof. unfold checkVPNProxy. split; collector. Qed.

Lemma analyzeUserAgent_decision ua a :
  isBlocked (analyzeUserAgent w ua a) = isBlocked a
  /\ reason (analyzeUserAgent w ua a) = reason a.
Proof. unfold analyzeUserAgent. split; collector. Qed.

Lemma checkIPReputation_decision ip0 a :
  isBlocked (checkIPReputation w ip0 a) = isBlocked a
  /\ reason (checkIPReputation w ip0 a) = reason a.
Proof. unfold checkIPReputation. split; collector. Qed.

(** *** Points: what each collector adds *)

Lemma analyzeGeoIP_points ip0 a :
  riskScore (analyzeGeoIP w ip0 a) = riskScore a + geoPoints w ip0.
Proof. unfold analyzeGeoIP, geoPoints. collector. Qed.

Lemma checkTorExitNode_points ip0 a ts :
  riskScore (fst (checkTorExitNode w ip0 a ts)) = riskScore a + torPoints w ip0 ts.
Proof.
  unfold checkTorExitNode, torPoints.
  destruct (TorService.isTorExitNode _ _ _ _) as [b ts']. simpl.
  collector.
Qed.

Lemma checkVPNProxy_points ip0 a :
  riskScore (checkVPNProxy w ip0 a) = riskScore a + vpnPoints w ip0.
Proof. unfold checkVPNProxy, vpnPoints. collector. Qed.

Lemma analyzeUserAgent_points ua a :
  riskScore (analyzeUserAgent w ua a) = riskScore a + userAgentPoints ua.
Proof. unfold analyzeUserAgent, userAgentPoints. collector. Qed.

Lemma checkIPReputation_points ip0 a :
  riskScore (checkIPReputation w ip0 a) = riskScore a + reputationPoints w ip0.
Proof. unfold checkIPReputation, reputationPoints. collector. Qed.

(** *** Flags: who writes the properties the decision reads *)

Ltac untouched :=
  intros;
  repeat match goal with
         | |- context [match ?x with _ => _ end] => destruct x eqn:?
         | |- context [if ?b then _ else _] => destruct b eqn:?
         end;
  cbn [details setDetail setCheck addRisk setRisk fst snd];
  repeat (rewrite lookup_insert_ne by discriminate);
  rewrite ?lookup_insert_eq;
  try reflexivity.

Lemma analyzeGeoIP_flags ip0 a :
  details (analyzeGeoIP w ip0 a) !! "isTor" = details a !! "isTor"
  /\ details (analyzeGeoIP w ip0 a) !! "vpnBlocked" = details a !! "vpnBlocked"
  /\ details (analyzeGeoIP w ip0 a) !! "badReputation" = details a !! "badReputation".
Proof. unfold analyzeGeoIP. repeat split; untouched. Qed.

Lemma checkTorExitNode_flags ip0 a ts :
  details (fst (checkTorExitNode w ip0 a ts)) !! "isTor"
  = Some (VBool (fst (TorService.isTorExitNode (now w) (torFeeds w) ip0 ts)))
  /\ details (fst (checkTorExitNode w ip0 a ts)) !! "vpnBlocked" = details a !! "vpnBlocked"
  /\ details (fst (checkTorExitNode w ip0 a ts)) !! "badReputation" = details a !! "badReputation".
Proof.
  unfold checkTorExitNode.
  destruct (TorService.isTorExitNode _ _ _ _) as [b ts']. cbn [fst].
  repeat split; untouched.
Qed.

Lemma checkVPNProxy_flags ip0 a :
  details a !! "vpnBlocked" = None ->
  details (checkVPNProxy w ip0 a) !! "isTor" = details a !! "isTor"
  /\ truthy (details (checkVPNProxy w ip0 a) !! "vpnBlocked") = (vpnPoints w ip0 =? 60)%Z
  /\ details (checkVPNProxy w ip0 a) !! "badReputation" = details a !! "badReputation".
Proof.
  intros H. unfold checkVPNProxy, vpnPoints.
  repeat split; untouched; rewrite ?H; reflexivity.
Qed.

Lemma analyzeUserAgent_flags ua a :
  details (analyzeUserAgent w ua a) !! "isTor" = details a !! "isTor"
  /\ details (analyzeUserAgent w ua a) !! "vpnBlocked" = details a !! "vpnBlocked"
  /\ details (analyzeUserAgent w ua a) !! "badReputation" = details a !! "badReputation".
Proof. unfold analyzeUserAgent. repeat split; untouched. Qed.

Lemma checkIPReputation_flags ip0 a :
  details a !! "badReputation" = None ->
  details (checkIPReputation w ip0 a) !! "isTor" = details a !! "isTor"
  /\ details (checkIPReputation w ip0 a) !! "vpnBlocked" = details a !! "vpnBlocked"
  /\ truthy (details (checkIPReputation w ip0 a) !! "badReputation")
     = (0 <? reputationPoints w ip0)%Z.
Proof.
  intros H. unfold checkIPReputation, reputationPoints.
  repeat split; untouched; rewrite ?H; cbn [truthy]; try reflexivity.
  symmetry. apply Z.ltb_lt. apply Z.ltb_lt in Heqb. lia.
Qed.

Lemma calculateRiskScore_flags a :
  details (calculateRiskScore a) !! "isTor" = details a !! "isTor"
  /\ details (calculateRiskScore a) !! "vpnBlocked" = details a !! "vpnBlocked"
  /\ details (calculateRiskScore a) !! "badReputation" = details a !! "badReputation".
Proof. unfold calculateRiskScore. repeat split; untouched. Qed.

(** *** The pipeline either throws or returns what the steps compute *)

Lemma tryAnalyzeIP_returns ip0 ua ts :
  pipelineThrows w = false ->
  tryAnalyzeIP w ip0 ua ts
  = (Returned (makeBlockDecision w (calculateRiskScore (fst (collect w ip0 ua ts)))),
     snd (collect w ip0 ua ts)).
Proof.
  unfold pipelineThrows, stagesOf, tryAnalyzeIP, collect, pure, withTor, bind, enter, ret.
  intros H.
  destruct (checkTorExitNode w ip0 _ ts) as [a1 ts1] eqn:Htor.
  destruct (isSet (ABUSEIPDB_KEY (env w))); simpl in H;
    repeat (apply orb_false_elim in H; destruct H as [?E H]);
    repeat (match goal with
            | Hs : escapes w _ = false |- _ => rewrite Hs
            | _ => rewrite Htor
            end; simpl);
    reflexivity.
Qed.

Lemma tryAnalyzeIP_throws ip0 ua ts :
  pipelineThrows w = true ->
  fst (tryAnalyzeIP w ip0 ua ts) = Threw.
Proof.
  unfold pipelineThrows, stagesOf, tryAnalyzeIP, pure, withTor, bind, enter, ret.
  intros H.
  destruct (escapes w StGeoIP) eqn:E1; [reflexivity|].
  destruct (escapes w StTor) eqn:E2; [reflexivity|].
  destruct (checkTorExitNode w ip0 _ ts) as [a1 ts1].
  destruct (escapes w StVPN) eqn:E3; [reflexivity|].
  destruct (escapes w StUserAgent) eqn:E4; [reflexivity|].
  destruct (isSet (ABUSEIPDB_KEY (env w))); simpl in H;
    rewrite ?E1, ?E2, ?E3, ?E4 in H; simpl in H.
  - destruct (escapes w StReputation) eqn:E5; [reflexivity|].
    destruct (escapes w StScore) eqn:E6; [reflexivity|].
    destruct (escapes w StDecision) eqn:E7; [reflexivity|].
    discriminate.
  - destruct (escapes w StScore) eqn:E6; [reflexivity|].
    destruct (escapes w StDecision) eqn:E7; [reflexivity|].
    discriminate.
Qed.

Lemma analyzeIP_returns ip0 ua ts :
  pipelineThrows w = false ->
  fst (analyzeIP w ip0 ua ts)
  = makeBlockDecision w (calculateRiskScore
      (fst (collect w ip0 (match ua with Some s => s | None => "" end) ts))).
Proof.
  intros H. unfold analyzeIP. rewrite (tryAnalyzeIP_returns _ _ _ H). reflexivity.
Qed.

Lemma analyzeIP_throws ip0 ua ts :
  pipelineThrows w = true ->
  fst (analyzeIP w ip0 ua ts) = analysisFailed ip0.
Proof.
  intros H. unfold analyzeIP.
  pose proof (tryAnalyzeIP_throws ip0 (match ua with Some s => s | None => "" end) ts H) as T.
  destruct (tryAnalyzeIP _ _ _ _) as [[a|] ts']; simpl in T; [discriminate|reflexivity].
Qed.

(** *** The collected analysis: score and pending decision *)

Lemma score_of_collect ip0 ua ts :
  riskScore (fst (collect w ip0 ua ts))
  = geoPoints w ip0 + torPoints w ip0 ts + vpnPoints w ip0 + userAgentPoints ua
    + (if isSet (ABUSEIPDB_KEY (env w)) then reputationPoints w ip0 else 0).
Proof.
  unfold collect.
  pose proof (checkTorExitNode_points ip0 (analyzeGeoIP w ip0 (newAnalysis ip0)) ts) as T.
  destruct (checkTorExitNode _ _ _ _) as [a1 ts1]. simpl in T |- *.
  destruct (isSet _).
  - rewrite checkIPReputation_points, analyzeUserAgent_points,
      checkVPNProxy_points, T, analyzeGeoIP_points. simpl. lia.
  - rewrite analyzeUserAgent_points, checkVPNProxy_points, T, analyzeGeoIP_points.
    simpl. lia.
Qed.

Lemma collect_undecided ip0 ua ts :
  isBlocked (fst (collect w ip0 ua ts)) = false.
Proof.
  unfold collect.
  pose proof (checkTorExitNode_decision ip0 (analyzeGeoIP w ip0 (newAnalysis ip0)) ts) as [T _].
  destruct (checkTorExitNode _ _ _ _) as [a1 ts1]. simpl in T |- *.
  destruct (isSet _).
  - rewrite (proj1 (checkIPReputation_decision _ _)),
      (proj1 (analyzeUserAgent_decision _ _)),
      (proj1 (checkVPNProxy_decision _ _)), T,
      (proj1 (analyzeGeoIP_decision _ _)). reflexivity.
  - rewrite (proj1 (analyzeUserAgent_decision _ _)),
      (proj1 (checkVPNProxy_decision _ _)), T,
      (proj1 (analyzeGeoIP_decision _ _)). reflexivity.
Qed.

Lemma collect_flags ip0 ua ts :
  let d := details (fst (collect w ip0 ua ts)) in
  d !! "isTor"
  = Some (VBool (fst (TorService.isTorExitNode (now w) (torFeeds w) ip0 ts)))
  /\ truthy (d !! "vpnBlocked") = (vpnPoints w ip0 =? 60)%Z
  /\ truthy (d !! "badReputation")
     = isSet (ABUSEIPDB_KEY (env w)) && (0 <? reputationPoints w ip0)%Z.
Proof.
  cbv zeta. unfold collect.
  set (a0 := analyzeGeoIP w ip0 (newAnalysis ip0)).
  destruct (analyzeGeoIP_flags ip0 (newAnalysis ip0)) as (_ & G2 & G3).
  destruct (checkTorExitNode_flags ip0 a0 ts) as (T1 & T2 & T3).
  fold a0 in G2, G3.
  destruct (checkTorExitNode w ip0 a0 ts) as [a1 ts1]. cbn [fst] in *.
  assert (V0 : details a1 !! "vpnBlocked" = None)
    by (rewrite T2, G2; reflexivity).
  destruct (checkVPNProxy_flags ip0 a1 V0) as (V1 & V2 & V3).
  set (a2 := checkVPNProxy w ip0 a1) in *.
  destruct (analyzeUserAgent_flags ua a2) as (U1 & U2 & U3).
  set (a3 := analyzeUserAgent w ua a2) in *.
  assert (R0 : details a3 !! "badReputation" = None)
    by (rewrite U3, V3, T3, G3; reflexivity).
  destruct (isSet (ABUSEIPDB_KEY (env w))); cbn [fst andb].
  - destruct (checkIPReputation_flags ip0 a3 R0) as (R1 & R2 & R3).
    rewrite R1, R2, R3, U1, U2, V1, V2, T1. repeat split; reflexivity.
  - rewrite U1, U2, R0, V1, V2, T1. repeat split; reflexivity.
Qed.

Lemma points_nonneg ip0 ua ts :
  0 <= geoPoints w ip0 /\ 0 <= torPoints w ip0 ts /\ 0 <= vpnPoints w ip0
  /\ 0 <= userAgentPoints ua /\ 0 <= reputationPoints w ip0.
Proof.
  unfold geoPoints, torPoints, vpnPoints, userAgentPoints, reputationPoints.
  repeat split; collector.
Qed.

Lemma calculateRiskScore_score a :
  riskScore (calculateRiskScore a) = Z.min (riskScore a) 100
  /\ isBlocked (calculateRiskScore a) = isBlocked a
  /\ reason (calculateRiskScore a) = reason a.
Proof. unfold calculateRiskScore. repeat split; collector. Qed.

Lemma makeBlockDecision_frame a :
  riskScore (makeBlockDecision w a) = riskScore a
  /\ details (makeBlockDecision w a) = details a.
Proof. unfold makeBlockDecision. split; collector. Qed.

Lemma makeBlockDecision_blocked a :
  isBlocked a = false ->
  (isBlocked (makeBlockDecision w a) = true <-> threshold (env w) <= riskScore a).
Proof.
  intros Hu. unfold makeBlockDecision.
  destruct (threshold (env w) <=? riskScore a)%Z eqn:E.
  - apply Z.leb_le in E. split; [intros _; exact E|intros _]. collector.
  - apply Z.leb_gt in E. rewrite Hu. split; [discriminate|lia].
Qed.

Lemma analyzeIP_blocked ip0 ua ts :
  isBlocked (fst (analyzeIP w ip0 ua ts)) = true
  <-> threshold (env w) <= riskScore (fst (analyzeIP w ip0 ua ts)).
Proof.
  destruct (pipelineThrows w) eqn:T.
  - rewrite (analyzeIP_throws ip0 ua ts T). simpl.
    split; [intros _|reflexivity]. unfold threshold. destruct (isTrue _); lia.
  - rewrite (analyzeIP_returns ip0 ua ts T).
    rewrite (proj1 (makeBlockDecision_frame _)).
    apply makeBlockDecision_blocked.
    rewrite (proj1 (proj2 (calculateRiskScore_score _))).
    apply collect_undecided.
Qed.

End AnalyzerFacts.

(** ** Strings *)

Section StringFacts.

Lemma prefix_app p s :
  String.prefix p s = true <-> exists post, s = p ++ post.
Proof.
  revert s. induction p as [|c p IH]; intros s.
  - split; [intros _; exists s; reflexivity|intros _; destruct s; reflexivity].
  - destruct s as [|d s]; simpl.
    + split; [discriminate|intros [post E]; discriminate].
    + destruct (Ascii.ascii_dec c d) as [->|N].
      * rewrite IH. split; intros [post E]; exists post.
        -- rewrite E. reflexivity.
        -- change (String d s = String d (p ++ post)) in E. now inversion E.
      * split; [discriminate|intros [post E]].
        change (String d s = String c (p ++ post)) in E. inversion E; congruence.
Qed.

(** [includes] is the substring test. *)
Lemma includes_app s p :
  JS.includes s p = true <-> exists pre post, s = pre ++ p ++ post.
Proof.
  induction s as [|c s IH]; cbn [JS.includes].
  - rewrite orb_false_r, prefix_app. split.
    + intros [post E]. exists "", post. exact E.
    + intros (pre & post & E). destruct pre; [eauto|discriminate].
  - rewrite orb_true_iff, prefix_app, IH. split.
    + intros [[post E]|(pre & post & E)].
      * exists "", post. exact E.
      * exists (String c pre), post. rewrite E. reflexivity.
    + intros (pre & post & E). destruct pre as [|d pre].
      * left. eauto.
      * right. exists pre, post.
        change (String c s = String d (pre ++ p ++ post)) in E. now inversion E.
Qed.

Lemma short_is_empty_or_short ua :
  IPAnalyzer.emptyOrShort ua = bool_decide (String.length ua < 10)%nat.
Proof.
  unfold IPAnalyzer.emptyOrShort.
  destruct ua as [|c ua]; [reflexivity|]. cbn [JS.truthy negb orb].
  destruct (Z.ltb_spec (Z.of_nat (String.length (String c ua))) 10).
  - rewrite bool_decide_eq_true_2 by lia. reflexivity.
  - rewrite bool_decide_eq_false_2 by lia. reflexivity.
Qed.

End StringFacts.

Section AnalyzerClaims.

Import IPAnalyzer.

Lemma threshold_by_mode e :
  threshold e = if decide (STRICT_MODE e = Some "true") then 40 else 70.
Proof.
  unfold threshold, isTrue. destruct (STRICT_MODE e) as [s|].
  - destruct (String.eqb_spec s "true") as [->|N].
    + rewrite decide_True; reflexivity.
    + rewrite decide_False; [reflexivity|congruence].
  - rewrite decide_False; [reflexivity|discriminate].
Qed.

(** C1. For every analyzed request the block decision is the threshold
    comparison: [isBlocked] holds exactly when the returned score
    reaches the threshold, 40 when [STRICT_MODE] is ['true'] and 70
    otherwise. *)
Theorem C1_blocked_iff_threshold (w : World) ip0 ua ts :
  let a := fst (analyzeIP w ip0 ua ts) in
  isBlocked a = true
  <-> (if decide (STRICT_MODE (env w) = Some "true") then 40 else 70) <= riskScore a.
Proof.
  cbv zeta. rewrite <- threshold_by_mode. apply analyzeIP_blocked.
Qed.

(** C5. For all inputs the returned score lies in [0, 100]: no
    collector lowers the score, the sum is capped at 100, and the
    record of the failure path carries 100. *)
Theorem C5_riskScore_bounded (w : World) ip0 ua ts :
  0 <= riskScore (fst (analyzeIP w ip0 ua ts)) <= 100
  /\ (forall a ts' ua',
        riskScore a <= riskScore (analyzeGeoIP w ip0 a)
        /\ riskScore a <= riskScore (fst (checkTorExitNode w ip0 a ts'))
        /\ riskScore a <= riskScore (checkVPNProxy w ip0 a)
        /\ riskScore a <= riskScore (analyzeUserAgent w ua' a)
        /\ riskScore a <= riskScore (checkIPReputation w ip0 a))
  /\ riskScore (analysisFailed ip0) = 100.
Proof.
  split; [|split; [|reflexivity]].
  - destruct (pipelineThrows w) eqn:T.
    + rewrite (analyzeIP_throws w ip0 ua ts T). simpl. lia.
    + rewrite (analyzeIP_returns w ip0 ua ts T).
      rewrite (proj1 (makeBlockDecision_frame w _)).
      rewrite (proj1 (calculateRiskScore_score _)).
      rewrite score_of_collect.
      pose proof (points_nonneg w ip0 (match ua with Some s => s | None => "" end) ts)
        as (G & R & V & U & P).
      destruct (isSet _); lia.
  - intros a ts' ua'.
    rewrite analyzeGeoIP_points, checkTorExitNode_points, checkVPNProxy_points,
      analyzeUserAgent_points, checkIPReputation_points.
    pose proof (points_nonneg w ip0 ua' ts') as (G & R & V & U & P).
    repeat split; lia.
Qed.

(** C2. Whenever [makeBlockDecision] blocks, the reason follows the
    fixed priority: [TOR_EXIT_NODE] if the Tor flag is set, else
    [VPN_PROXY_DETECTED] if the VPN flag is set, else
    [BAD_IP_REPUTATION] if the reputation flag is set, else
    [HIGH_RISK_SCORE]; so does every blocked result of a pipeline that
    completed, and with both the Tor and the VPN flag set the reason is
    [TOR_EXIT_NODE] and not [VPN_PROXY_DETECTED].  The flags are the
    ones the collectors wrote: Tor membership, a VPN lookup that
    scored, a reputation lookup that scored. *)
Theorem C2_reason_priority (w : World) ip0 ua ts :
  (forall a0,
     threshold (env w) <= riskScore a0 ->
     isBlocked (makeBlockDecision w a0) = true
     /\ reason (makeBlockDecision w a0)
        = Some (if truthy (details a0 !! "isTor") then TOR_EXIT_NODE
                else if truthy (details a0 !! "vpnBlocked") then VPN_PROXY_DETECTED
                else if truthy (details a0 !! "badReputation") then BAD_IP_REPUTATION
                else HIGH_RISK_SCORE))
  /\ (let a := fst (analyzeIP w ip0 ua ts) in
      let d := details a in
      isBlocked a = true ->
      reason a <> Some ANALYSIS_ERROR ->
      reason a
      = Some (if truthy (d !! "isTor") then TOR_EXIT_NODE
              else if truthy (d !! "vpnBlocked") then VPN_PROXY_DETECTED
              else if truthy (d !! "badReputation") then BAD_IP_REPUTATION
              else HIGH_RISK_SCORE)
      /\ (truthy (d !! "isTor") && truthy (d !! "vpnBlocked") = true ->
          reason a = Some TOR_EXIT_NODE /\ reason a <> Some VPN_PROXY_DETECTED)
      /\ d !! "isTor"
         = Some (VBool (fst (TorService.isTorExitNode (now w) (torFeeds w) ip0 ts)))
      /\ truthy (d !! "vpnBlocked") = (vpnPoints w ip0 =? 60)%Z
      /\ truthy (d !! "badReputation")
         = isSet (ABUSEIPDB_KEY (env w)) && (0 <? reputationPoints w ip0)%Z).
Proof.
  assert (D : forall a0,
     threshold (env w) <= riskScore a0 ->
     isBlocked (makeBlockDecision w a0) = true
     /\ reason (makeBlockDecision w a0)
        = Some (if truthy (details a0 !! "isTor") then TOR_EXIT_NODE
                else if truthy (details a0 !! "vpnBlocked") then VPN_PROXY_DETECTED
                else if truthy (details a0 !! "badReputation") then BAD_IP_REPUTATION
                else HIGH_RISK_SCORE)).
  { intros a0 H. apply Z.leb_le in H. unfold makeBlockDecision. rewrite H.
    destruct (truthy (_ !! "isTor")); [split; reflexivity|].
    destruct (truthy (_ !! "vpnBlocked")); [split; reflexivity|].
    destruct (truthy (_ !! "badReputation")); split; reflexivity. }
  split; [exact D|].
  cbv zeta. intros B NE.
  destruct (pipelineThrows w) eqn:T.
  { rewrite (analyzeIP_throws w ip0 ua ts T) in NE. now elim NE. }
  rewrite (analyzeIP_returns w ip0 ua ts T) in *.
  set (c := fst (collect w ip0 (match ua with Some s => s | None => "" end) ts)) in *.
  assert (U : isBlocked (calculateRiskScore c) = false).
  { rewrite (proj1 (proj2 (calculateRiskScore_score c))). apply collect_undecided. }
  assert (R : threshold (env w) <= riskScore (calculateRiskScore c)).
  { apply (makeBlockDecision_blocked w _ U). exact B. }
  destruct (D _ R) as [_ R'].
  rewrite (proj2 (makeBlockDecision_frame w _)).
  split; [exact R'|]. split.
  - intros F. apply andb_prop in F as [F1 F2].
    rewrite R', F1. split; [reflexivity|discriminate].
  - destruct (calculateRiskScore_flags c) as (F1 & F2 & F3).
    rewrite F1, F2, F3. apply collect_flags.
Qed.

(** An address on the Tor list that ip-api.com also flags, with
    [BLOCK_VPN_TOR] on: blocked as [TOR_EXIT_NODE]. *)
Lemma C2_reason_priority_witness :
  let a := fst (analyzeIP (Sample.proxied Sample.blockAll) "185.220.101.2"
                  (Some "curl") TorService.init) in
  truthy (details a !! "isTor") && truthy (details a !! "vpnBlocked") = true
  /\ reason a = Some TOR_EXIT_NODE.
Proof.
  cbv zeta. split; [vm_compute; reflexivity|].
  refine (proj1 (proj1 (proj2 (proj2
    (C2_reason_priority (Sample.proxied Sample.blockAll) "185.220.101.2"
       (Some "curl") TorService.init) _ _)) _)).
  - vm_compute; reflexivity.
  - vm_compute; discriminate.
  - vm_compute; reflexivity.
Defined.

Lemma collect_reason (w : World) ip0 ua ts :
  reason (fst (collect w ip0 ua ts)) = None.
Proof.
  unfold collect.
  pose proof (checkTorExitNode_decision w ip0 (analyzeGeoIP w ip0 (newAnalysis ip0)) ts) as [_ D].
  destruct (checkTorExitNode _ _ _ _) as [a1 ts1]. cbn [fst] in *.
  destruct (isSet _);
    rewrite ?(proj2 (checkIPReputation_decision w _ _)),
      (proj2 (analyzeUserAgent_decision w _ _)),
      (proj2 (checkVPNProxy_decision w _ _)), D,
      (proj2 (analyzeGeoIP_decision w _ _)); reflexivity.
Qed.

Lemma escaping_stage (w : World) :
  pipelineThrows w = true <-> exists st, In st (stagesOf w) /\ escapes w st = true.
Proof. unfold pipelineThrows. apply existsb_exists. Qed.

Lemma no_escaping_stage (w : World) :
  (forall st, In st (stagesOf w) -> escapes w st = false) -> pipelineThrows w = false.
Proof.
  intros H. destruct (pipelineThrows w) eqn:T; [|reflexivity].
  apply escaping_stage in T as (st & I & E). rewrite (H st I) in E. discriminate.
Qed.

(** C3. The [try] block of [analyzeIP] throws exactly when an
    exception escapes one of the steps it enters, whatever the
    collectors' own lookups do.  When it throws the result is blocked
    with score 100 and reason [ANALYSIS_ERROR], and no other path ends
    there.  When no exception escapes, lookups that throw only leave
    their points out: the result is scored and decided as usual, and
    with every lookup down and the address not on the Tor list the
    request is allowed with the user-agent points alone.  A collector
    whose own lookup throws leaves the analysis as it found it. *)
Theorem C3_pipeline_fails_closed (w : World) ip0 ua ts :
  let ua0 := match ua with Some s => s | None => "" end in
  let body := fst (tryAnalyzeIP w ip0 ua0 ts) in
  let a := fst (analyzeIP w ip0 ua ts) in
  (body = Threw <-> exists st, In st (stagesOf w) /\ escapes w st = true)
  /\ (body = Threw ->
      isBlocked a = true /\ riskScore a = 100 /\ reason a = Some ANALYSIS_ERROR)
  /\ (reason a = Some ANALYSIS_ERROR -> body = Threw)
  /\ ((forall st, In st (stagesOf w) -> escapes w st = false) ->
      body <> Threw
      /\ reason a <> Some ANALYSIS_ERROR
      /\ (isBlocked a = true <-> threshold (env w) <= riskScore a)
      /\ riskScore a
         = Z.min (geoPoints w ip0 + torPoints w ip0 ts + vpnPoints w ip0
                  + userAgentPoints ua0
                  + (if isSet (ABUSEIPDB_KEY (env w)) then reputationPoints w ip0 else 0))
                 100
      /\ (geoLookup w ip0 = Threw -> geoPoints w ip0 = 0)
      /\ (ipApi w ip0 = Threw -> vpnPoints w ip0 = 0)
      /\ (abuseIpDb w ip0 = Threw -> reputationPoints w ip0 = 0)
      /\ (geoLookup w ip0 = Threw -> ipApi w ip0 = Threw -> abuseIpDb w ip0 = Threw ->
          fst (TorService.isTorExitNode (now w) (torFeeds w) ip0 ts) = false ->
          isBlocked a = false /\ reason a = None
          /\ riskScore a = userAgentPoints ua0))
  /\ (forall a0, geoLookup w ip0 = Threw -> analyzeGeoIP w ip0 a0 = a0)
  /\ (forall a0, ipApi w ip0 = Threw -> checkVPNProxy w ip0 a0 = a0)
  /\ (forall a0, abuseIpDb w ip0 = Threw -> checkIPReputation w ip0 a0 = a0).
Proof.
  intros ua0 body a.
  assert (Thr : body = Threw <-> pipelineThrows w = true).
  { unfold body. destruct (pipelineThrows w) eqn:T.
    - split; [reflexivity|]. intros _. apply (tryAnalyzeIP_throws w _ _ _ T).
    - rewrite (tryAnalyzeIP_returns w ip0 ua0 ts T). split; discriminate. }
  assert (Ret : pipelineThrows w = false ->
                a = makeBlockDecision w (calculateRiskScore (fst (collect w ip0 ua0 ts)))).
  { intros T. unfold a. apply (analyzeIP_returns w ip0 ua ts T). }
  assert (Rsn : pipelineThrows w = false -> reason a <> Some ANALYSIS_ERROR
                /\ (isBlocked a = false -> reason a = None)).
  { intros T. rewrite (Ret T). set (c := calculateRiskScore _).
    assert (U : reason c = None).
    { unfold c. rewrite (proj2 (proj2 (calculateRiskScore_score _))).
      apply collect_reason. }
    unfold makeBlockDecision.
    repeat match goal with
           | |- context [if ?b then _ else _] => destruct b
           end; cbn [reason block isBlocked]; rewrite ?U;
      (split; [discriminate|]); try discriminate; reflexivity. }
  split; [rewrite Thr; apply escaping_stage|].
  split.
  { unfold body, a, analyzeIP. fold ua0.
    destruct (tryAnalyzeIP _ _ _ _) as [[r|] ts']; cbn [fst];
      [discriminate|intros _; repeat split; reflexivity]. }
  split.
  { intros R. apply Thr. destruct (pipelineThrows w) eqn:T; [reflexivity|].
    destruct (Rsn eq_refl) as [N _]. contradiction. }
  split.
  { intros Q. pose proof (no_escaping_stage w Q) as T.
    assert (S : riskScore a
         = Z.min (geoPoints w ip0 + torPoints w ip0 ts + vpnPoints w ip0
                  + userAgentPoints ua0
                  + (if isSet (ABUSEIPDB_KEY (env w)) then reputationPoints w ip0 else 0))
                 100).
    { rewrite (Ret T), (proj1 (makeBlockDecision_frame w _)),
        (proj1 (calculateRiskScore_score _)), score_of_collect. reflexivity. }
    pose proof (analyzeIP_blocked w ip0 ua ts) as B. fold a in B.
    split; [intros E; apply Thr in E; congruence|].
    split; [exact (proj1 (Rsn T))|].
    split; [exact B|]. split; [exact S|].
    split; [intros G; unfold geoPoints; rewrite G; reflexivity|].
    split; [intros V; unfold vpnPoints; rewrite V;
            destruct (isSet (IPAPI_KEY (env w))); reflexivity|].
    split; [intros R; unfold reputationPoints; rewrite R; reflexivity|].
    intros G V R M.
    assert (S' : riskScore a = userAgentPoints ua0).
    { rewrite S. unfold geoPoints, torPoints, vpnPoints, reputationPoints.
      rewrite G, V, R, M. cbn [andb].
      assert (0 <= userAgentPoints ua0 <= 35)
        by (unfold userAgentPoints; destruct (emptyOrShort ua0), (looksLikeBot ua0); lia).
      destruct (isSet (IPAPI_KEY (env w))), (isSet (ABUSEIPDB_KEY (env w))); lia. }
    assert (NB : isBlocked a = false).
    { destruct (isBlocked a); [|reflexivity].
      assert (L : threshold (env w) <= riskScore a) by (apply B; reflexivity).
      rewrite S' in L. unfold threshold in L.
      assert (userAgentPoints ua0 <= 35)
        by (unfold userAgentPoints; destruct (emptyOrShort ua0), (looksLikeBot ua0); lia).
      destruct (isTrue _); lia. }
    split; [exact NB|]. split; [exact (proj2 (Rsn T) NB)|exact S']. }
  repeat split.
  - intros a0 H. unfold analyzeGeoIP. rewrite H. reflexivity.
  - intros a0 H. unfold checkVPNProxy. rewrite H.
    destruct (isSet (IPAPI_KEY (env w))); reflexivity.
  - intros a0 H. unfold checkIPReputation. rewrite H. reflexivity.
Qed.

(** An exception leaving the scoring step fails closed; every lookup
    throwing, with no escaping exception, does not. *)
Lemma C3_pipeline_fails_closed_witness :
  (let a := fst (analyzeIP (Sample.broken Sample.noEnv) "203.0.113.7"
                   (Some Sample.firefox) TorService.init) in
   isBlocked a = true /\ riskScore a = 100 /\ reason a = Some ANALYSIS_ERROR)
  /\ (let a := fst (analyzeIP Sample.allDown "203.0.113.7" (Some Sample.firefox)
                      TorService.init) in
      isBlocked a = false /\ reason a = None /\ riskScore a = 0).
Proof.
  split.
  - cbv zeta.
    apply (proj1 (proj2 (C3_pipeline_fails_closed (Sample.broken Sample.noEnv)
                           "203.0.113.7" (Some Sample.firefox) TorService.init))).
    vm_compute. reflexivity.
  - cbv zeta.
    refine (proj2 (proj2 (proj2 (proj2 (proj2 (proj2 (proj2
              (proj1 (proj2 (proj2 (proj2
                 (C3_pipeline_fails_closed Sample.allDown "203.0.113.7" (Some Sample.firefox) TorService.init))))
                 _))))))) _ _ _ _).
    + intros st _. reflexivity.
    + reflexivity.
    + reflexivity.
    + reflexivity.
    + vm_compute. reflexivity.
Defined.

(** C8. A reputation lookup that reports confidence [c] adds
    [min c 50] points when [c > 25] and nothing otherwise.  With
    [c = 90] and no other collector scoring, the score is 50: blocked
    in strict mode, allowed in normal mode. *)
Theorem C8_reputation_points (w : World) ip0 ua ts report :
  abuseIpDb w ip0 = Returned (Some report) ->
  let c := abuseConfidencePercentage report in
  (forall a,
     riskScore (checkIPReputation w ip0 a)
     = riskScore a + (if decide (25 < c) then Z.min c 50 else 0))
  /\ (c = 90 ->
      isSet (ABUSEIPDB_KEY (env w)) = true ->
      pipelineThrows w = false ->
      geoPoints w ip0 = 0 -> torPoints w ip0 ts = 0 -> vpnPoints w ip0 = 0 ->
      userAgentPoints (match ua with Some s => s | None => "" end) = 0 ->
      let a := fst (analyzeIP w ip0 ua ts) in
      riskScore a = 50
      /\ isBlocked a = bool_decide (STRICT_MODE (env w) = Some "true")).
Proof.
  intros H c. split.
  - intros a. rewrite checkIPReputation_points. unfold reputationPoints.
    rewrite H. fold c. destruct (Z.ltb_spec 25 c).
    + rewrite decide_True by assumption. reflexivity.
    + rewrite decide_False by lia. reflexivity.
  - intros C K T G R V U a.
    assert (S : riskScore a = 50).
    { unfold a. rewrite (analyzeIP_returns w ip0 ua ts T).
      rewrite (proj1 (makeBlockDecision_frame w _)).
      rewrite (proj1 (calculateRiskScore_score _)).
      rewrite score_of_collect, K, G, R, V, U.
      unfold reputationPoints. rewrite H. fold c. rewrite C. reflexivity. }
    split; [exact S|].
    pose proof (analyzeIP_blocked w ip0 ua ts) as B.
    fold a in B. rewrite S, threshold_by_mode in B.
    destruct (decide (STRICT_MODE (env w) = Some "true")) as [M|M].
    + rewrite bool_decide_eq_true_2 by assumption. apply B. lia.
    + rewrite bool_decide_eq_false_2 by assumption.
      destruct (isBlocked a); [|reflexivity].
      assert (70 <= 50) by (apply B; reflexivity). lia.
Qed.

(** Scenario C of the specification, in strict and in normal mode. *)
Lemma C8_reputation_points_witness :
  (let a := fst (analyzeIP (Sample.reported 90 Sample.strictWithKey) "198.51.100.9"
                   (Some Sample.firefox) TorService.init) in
   riskScore a = 50 /\ isBlocked a = true)
  /\ (let a := fst (analyzeIP (Sample.reported 90 Sample.normalWithKey) "198.51.100.9"
                      (Some Sample.firefox) TorService.init) in
      riskScore a = 50 /\ isBlocked a = false).
Proof.
  split.
  - refine (proj2 (C8_reputation_points (Sample.reported 90 Sample.strictWithKey)
                     "198.51.100.9" (Some Sample.firefox) TorService.init _ _)
              _ _ _ _ _ _ _);
      vm_compute; reflexivity.
  - refine (proj2 (C8_reputation_points (Sample.reported 90 Sample.normalWithKey)
                     "198.51.100.9" (Some Sample.firefox) TorService.init _ _)
              _ _ _ _ _ _ _);
      vm_compute; reflexivity.
Defined.

(** C9. The user-agent collector adds 20 when the string is missing or
    shorter than 10 characters and 15 when it matches one of the bot
    patterns, case-insensitively and anywhere in the string; a missing
    user agent is the empty string, analysed like any other: the check
    is marked as performed and the 20 points are added. *)
Theorem C9_userAgent_points (w : World) ua a :
  riskScore (analyzeUserAgent w ua a)
  = riskScore a
    + (if decide (String.length ua < 10)%nat then 20 else 0)
    + (if looksLikeBot ua then 15 else 0)
  /\ (looksLikeBot ua = true
      <-> exists p pre post,
            In p ["bot"; "crawler"; "spider"; "scraper";
                  "curl"; "wget"; "python"; "java"]
            /\ JS.fold_string ua = pre ++ p ++ post)
  /\ option_map userAgent (checks (analyzeUserAgent w ua a))
     = option_map (fun _ => true) (checks a)
  /\ riskScore (analyzeUserAgent w "" a) = riskScore a + 20
  /\ details (analyzeUserAgent w "" a) !! "suspiciousUA"
     = Some (VStr "Empty or too short")
  /\ (forall ip0 ts, analyzeIP w ip0 None ts = analyzeIP w ip0 (Some "") ts).
Proof.
  split; [|split; [|split; [|split; [|split]]]].
  - rewrite analyzeUserAgent_points. unfold userAgentPoints.
    rewrite short_is_empty_or_short.
    destruct (decide (String.length ua < 10)%nat).
    + rewrite bool_decide_eq_true_2 by assumption. lia.
    + rewrite bool_decide_eq_false_2 by assumption. lia.
  - unfold looksLikeBot. rewrite existsb_exists. unfold botPatterns. split.
    + intros (p & I & M). apply includes_app in M as (pre & post & E).
      exists p, pre, post. split; assumption.
    + intros (p & pre & post & I & E). exists p. split; [assumption|].
      apply includes_app. eauto.
  - unfold analyzeUserAgent. destruct a as [i b r n d [c|]];
      destruct (emptyOrShort ua), (looksLikeBot ua); reflexivity.
  - rewrite analyzeUserAgent_points. reflexivity.
  - unfold analyzeUserAgent.
    change (emptyOrShort "") with true. change (looksLikeBot "") with false.
    cbn [details setDetail]. apply lookup_insert_eq.
  - reflexivity.
Qed.

End AnalyzerClaims.

(** ** The Tor exit-node list *)

Section TorFacts.

Import TorService.

Lemma elem_of_addAll x nodes (s : gset string) :
  x ∈ addAll nodes s <-> x ∈ nodes \/ x ∈ s.
Proof.
  unfold addAll. revert s. induction nodes as [|n nodes IH]; intros s; simpl.
  - rewrite elem_of_nil. tauto.
  - rewrite IH, elem_of_cons, elem_of_union, elem_of_singleton. tauto.
Qed.

Lemma addAll_union nodes (s : gset string) :
  addAll nodes s = list_to_set nodes ∪ s.
Proof.
  apply set_eq. intros x.
  rewrite elem_of_addAll, elem_of_union, elem_of_list_to_set. tauto.
Qed.

(** The primary list, when it answers, replaces the set. *)
Lemma primary_replaces now f st data :
  torbulkexitlist f = Returned data -> JS.truthy data = true ->
  updateTorExitNodes now f st
  = {| torExitNodes := list_to_set (parseExitNodes data); lastUpdate := Some now |}.
Proof.
  intros P D. unfold updateTorExitNodes. rewrite P, D.
  rewrite addAll_union, union_empty_r_L. reflexivity.
Qed.

(** The mirror, when it answers, adds to the set. *)
Lemma mirror_adds now f st data :
  torbulkexitlist f = Threw ->
  mirrorList f = Returned data -> JS.truthy data = true ->
  updateTorExitNodes now f st
  = {| torExitNodes := list_to_set (parseExitNodes data) ∪ torExitNodes st;
       lastUpdate := Some now |}.
Proof.
  intros P M D. unfold updateTorExitNodes, loadFallbackExitNodes.
  rewrite P, M, D, addAll_union. reflexivity.
Qed.

(** With both lists down the constant set is added to the set. *)
Lemma hardcoded_adds now f st :
  torbulkexitlist f = Threw -> mirrorList f = Threw ->
  updateTorExitNodes now f st
  = {| torExitNodes := list_to_set knownExitNodes ∪ torExitNodes st;
       lastUpdate := Some now |}.
Proof.
  intros P M. unfold updateTorExitNodes, loadFallbackExitNodes, loadHardcodedExitNodes.
  rewrite P, M, addAll_union. reflexivity.
Qed.

(** C6, at an input.  The service holds the snapshot
    [{198.51.100.1}]; the primary list is down and the mirror delivers
    the single entry [203.0.113.5].  The refreshed set is the union of
    both: the entry of the old snapshot is still a member although the
    attempt did not deliver it, where the same data from the primary
    list gives exactly the delivered entry. *)
Theorem C6_mirror_keeps_old_entries :
  let st := Sample.loaded in
  let data := "203.0.113.5" in
  let st' := updateTorExitNodes 1700000000000 (Sample.primaryDown (Returned data)) st in
  parseExitNodes data = ["203.0.113.5"]
  /\ torExitNodes st' = {[ "203.0.113.5"; "198.51.100.1" ]}
  /\ ("198.51.100.1" ∈ torExitNodes st')
  /\ ("198.51.100.1" ∉ parseExitNodes data)
  /\ (torExitNodes
        (updateTorExitNodes 1700000000000
           {| torbulkexitlist := Returned data; mirrorList := Threw |} st)
      = {[ "203.0.113.5" ]}).
Proof.
  cbv zeta. split; [reflexivity|].
  rewrite (mirror_adds _ _ _ "203.0.113.5") by reflexivity.
  rewrite (primary_replaces _ _ _ "203.0.113.5") by reflexivity.
  change (parseExitNodes "203.0.113.5") with ["203.0.113.5"].
  cbn [torExitNodes Sample.loaded].
  split; [|split; [|split]].
  - set_solver.
  - set_solver.
  - intros H. apply list_elem_of_singleton in H. discriminate.
  - set_solver.
Qed.




End TorFacts.

(** ** The middleware: cache and log *)

Section MiddlewareFacts.

Import GuardianMiddleware.

Lemma analyze_hit h req sv data e :
  CacheService.cache (cacheService sv) = Some data ->
  data !! cacheKey (getClientIP req) = Some e ->
  NodeCache.expired (IPAnalyzer.now (world h)) e = false ->
  fst (analyze h req sv) = handleResult (NodeCache.v e) (freshRequestId h)
  /\ logService (snd (analyze h req sv)) = logService sv
  /\ torService (snd (analyze h req sv)) = torService sv
  /\ CacheService.cache (cacheService (snd (analyze h req sv))) = Some data.
Proof.
  intros C L X. unfold analyze, CacheService.get, NodeCache.get.
  rewrite C, L, X. repeat split; reflexivity.
Qed.

Lemma analyze_miss h req sv cs :
  CacheService.get (IPAnalyzer.now (world h)) (cacheKey (getClientIP req))
    (cacheService sv) = (None, cs) ->
  let a := fst (IPAnalyzer.analyzeIP (world h) (getClientIP req)
                  (Some (userAgentOf req)) (torService sv)) in
  fst (analyze h req sv) = handleResult a (freshRequestId h)
  /\ logService (snd (analyze h req sv))
     = LogService.logRequest (disk h) (requestData h req a) (logService sv).
Proof.
  intros G a. unfold analyze. rewrite G. unfold a, userAgentOf.
  destruct (IPAnalyzer.analyzeIP _ _ _ _) as [a' ts'].
  destruct (CacheService.set _ _ _ _ _) as [ok cs'].
  split; reflexivity.
Qed.

(** A logged entry is in the buffer, or in today's file once flushed. *)
Lemma logRequest_records d r st :
  let st' := LogService.logRequest d r st in
  LogService.logEntry r ∈ LogService.requestLogs st'
  \/ exists logs, LogService.files st' !! LogService.logFile d = Some logs
                  /\ LogService.logEntry r ∈ logs.
Proof.
  cbv zeta. unfold LogService.logRequest.
  set (buf := (LogService.requestLogs st ++ [LogService.logEntry r])%list).
  assert (I : LogService.logEntry r ∈ buf)
    by (apply elem_of_app; right; apply list_elem_of_singleton; reflexivity).
  cbn [LogService.requestLogs].
  destruct (LogService.maxLogsInMemory <=? length buf)%nat; [|left; exact I].
  unfold LogService.flushLogsToDisk. cbn [LogService.requestLogs LogService.files].
  destruct buf as [|b rest] eqn:B; [left; exact I|].
  destruct (LogService.writeFails d); [left; exact I|].
  right. cbn [LogService.files]. eexists. split; [apply lookup_insert_eq|].
  apply elem_of_app. right. exact I.
Qed.

(** C10. A request whose cache key holds an unexpired entry is
    answered from that entry and leaves the log service as it was:
    buffer and files unchanged.  A request that misses logs its own
    evaluation, which ends up in the buffer or in today's file. *)
Theorem C10_cache_hit_logs_nothing h req sv :
  (forall data e,
     CacheService.cache (cacheService sv) = Some data ->
     data !! cacheKey (getClientIP req) = Some e ->
     NodeCache.expired (IPAnalyzer.now (world h)) e = false ->
     fst (analyze h req sv) = handleResult (NodeCache.v e) (freshRequestId h)
     /\ LogService.requestLogs (logService (snd (analyze h req sv)))
        = LogService.requestLogs (logService sv)
     /\ logService (snd (analyze h req sv)) = logService sv)
  /\ (forall cs,
        CacheService.get (IPAnalyzer.now (world h)) (cacheKey (getClientIP req))
          (cacheService sv) = (None, cs) ->
        let a := fst (IPAnalyzer.analyzeIP (world h) (getClientIP req)
                        (Some (userAgentOf req)) (torService sv)) in
        let entry := LogService.logEntry (requestData h req a) in
        let ls := logService (snd (analyze h req sv)) in
        fst (analyze h req sv) = handleResult a (freshRequestId h)
        /\ (entry ∈ LogService.requestLogs ls
            \/ exists logs,
                 LogService.files ls !! LogService.logFile (disk h) = Some logs
                 /\ entry ∈ logs)).
Proof.
  split.
  - intros data e C L X.
    destruct (analyze_hit h req sv data e C L X) as (R & LS & _ & _).
    rewrite LS. split; [exact R|split; reflexivity].
  - intros cs G a entry ls.
    destruct (analyze_miss h req sv cs G) as (R & LS).
    split; [exact R|]. unfold ls, entry. rewrite LS. apply logRequest_records.
Qed.

(** Whatever the user agents: once a request from an address has been
    evaluated, the next request from that address within the 300 s is
    answered with that evaluation. *)
Lemma same_address_shares_entry h1 req1 h2 req2 sv data cs :
  CacheService.cache (cacheService sv) = Some data ->
  CacheService.get (IPAnalyzer.now (world h1)) (cacheKey (getClientIP req1))
    (cacheService sv) = (None, cs) ->
  getClientIP req2 = getClientIP req1 ->
  IPAnalyzer.now (world h2) <= IPAnalyzer.now (world h1) + 300 * 1000 ->
  fst (analyze h2 req2 (snd (analyze h1 req1 sv)))
  = handleResult
      (fst (IPAnalyzer.analyzeIP (world h1) (getClientIP req1)
              (Some (userAgentOf req1)) (torService sv)))
      (freshRequestId h2).
Proof.
  intros C G I T.
  assert (exists data',
            CacheService.cache (cacheService (snd (analyze h1 req1 sv)))
            = Some (<[ cacheKey (getClientIP req1) :=
                         {| NodeCache.v :=
                              fst (IPAnalyzer.analyzeIP (world h1) (getClientIP req1)
                                     (Some (userAgentOf req1)) (torService sv));
                            NodeCache.t := IPAnalyzer.now (world h1) + 300 * 1000 |} ]>
                      data')) as [data' S].
  { unfold analyze. rewrite G. fold (userAgentOf req1).
    destruct (IPAnalyzer.analyzeIP _ _ _ _) as [a ts]. cbn [fst].
    revert G. unfold CacheService.get, CacheService.set. rewrite C.
    destruct (NodeCache.get _ _ data) as [[hit|] data']; [discriminate|].
    intros G. injection G as <-. cbn [CacheService.cache snd cacheService].
    unfold NodeCache.set.
    destruct (Z.eqb_spec 300 0) as [E|_]; [discriminate E|].
    exists data'. reflexivity. }
  refine (proj1 (analyze_hit h2 req2 _ _
            {| NodeCache.v :=
                 fst (IPAnalyzer.analyzeIP (world h1) (getClientIP req1)
                        (Some (userAgentOf req1)) (torService sv));
               NodeCache.t := IPAnalyzer.now (world h1) + 300 * 1000 |} S _ _)).
  - rewrite I. apply lookup_insert_eq.
  - unfold NodeCache.expired. cbn [NodeCache.t].
    apply andb_false_iff. right. apply Z.ltb_ge. exact T.
Qed.

(** A second request from the same address, one second after a first
    one that missed: answered from the cache, nothing logged. *)
Lemma C10_cache_hit_logs_nothing_witness :
  let w := Sample.quiet Sample.noEnv in
  let sv1 := snd (analyze (Sample.host w "r1") (Sample.request "curl") Sample.started) in
  let h2 := Sample.host (Sample.at_time (IPAnalyzer.now w + 1000) w) "r2" in
  let out := analyze h2 (Sample.request Sample.firefox) sv1 in
  LogService.requestLogs (logService (snd out))
  = LogService.requestLogs (logService sv1)
  /\ length (LogService.requestLogs (logService sv1)) = 1%nat.
Proof.
  intros w sv1 h2 out. split; [|vm_compute; reflexivity].
  pose proof (proj1 (C10_cache_hit_logs_nothing h2
                (Sample.request Sample.firefox) sv1)
                (match CacheService.cache (cacheService sv1) with
                 | Some data => data
                 | None => ∅
                 end)
                {| NodeCache.v :=
                     fst (IPAnalyzer.analyzeIP w "203.0.113.7" (Some "curl")
                            (torService Sample.started));
                   NodeCache.t := IPAnalyzer.now w + 300 * 1000 |}) as H.
  repeat match type of H with
         | ?A -> _ =>
             let Ha := fresh in
             assert (Ha : A) by (vm_compute; reflexivity);
             specialize (H Ha)
         end.
  exact (proj1 (proj2 H)).
Defined.

(** C4, at an input.  In strict mode, with a reputation report of 30
    for the address: a first request with user agent [curl] scores 65
    and is blocked; one second later a request from the same address
    with a browser's user agent has the same cache key and receives
    the first request's blocked result, where its own evaluation
    scores 30 and is allowed. *)
Theorem C4_cache_key_ignores_user_agent :
  let w := Sample.reported 30 Sample.strictWithKey in
  let h1 := Sample.host w "r1" in
  let h2 := Sample.host (Sample.at_time (IPAnalyzer.now w + 1000) w) "r2" in
  let req1 := Sample.request "curl" in
  let req2 := Sample.request Sample.firefox in
  let sv1 := snd (analyze h1 req1 Sample.started) in
  let own := fst (IPAnalyzer.analyzeIP (world h2) (getClientIP req2)
                    (Some (userAgentOf req2)) (torService sv1)) in
  userAgentOf req1 <> userAgentOf req2
  /\ getClientIP req1 = getClientIP req2
  /\ cacheKey (getClientIP req1) = cacheKey (getClientIP req2)
  /\ fst (analyze h1 req1 Sample.started)
     = Status403 (Some IPAnalyzer.BAD_IP_REPUTATION) 65 "r1"
  /\ fst (analyze h2 req2 sv1)
     = Status403 (Some IPAnalyzer.BAD_IP_REPUTATION) 65 "r2"
  /\ IPAnalyzer.isBlocked own = false
  /\ IPAnalyzer.riskScore own = 30
  /\ handleResult own "r2" = Status418 30 (IPAnalyzer.details own) "r2".
Proof.
  vm_compute. split; [discriminate|]. repeat split.
Qed.

End MiddlewareFacts.

(** * Further properties of the services *)

(** ** The analyzer: levels, signals and performed checks *)

Section AnalyzerMore.

Import IPAnalyzer.

Lemma geoPoints_le (w : World) ip0 : geoPoints w ip0 <= 30.
Proof.
  unfold geoPoints. destruct (geoLookup w ip0) as [[g|]|]; try lia.
  destruct (isRisky _); lia.
Qed.

Lemma userAgentPoints_le ua : userAgentPoints ua <= 35.
Proof.
  unfold userAgentPoints. destruct (emptyOrShort ua), (looksLikeBot ua); lia.
Qed.

Lemma riskLevel_of_score a :
  details (calculateRiskScore a) !! "riskLevel"
  = Some (VStr (if (70 <=? Z.min (riskScore a) 100)%Z then "HIGH"
                else if (40 <=? Z.min (riskScore a) 100)%Z then "MEDIUM"
                else "LOW")).
Proof.
  unfold calculateRiskScore. cbn [riskScore setRisk].
  destruct (70 <=? _)%Z; [|destruct (40 <=? _)%Z]; apply lookup_insert_eq.
Qed.

(** The level written into the details is the level of the returned
    score, and the decision can be read off it: in normal mode a
    request is blocked exactly when the level is HIGH, in strict mode
    exactly when it is not LOW. *)
Theorem riskLevel_matches_decision (w : World) ip0 ua ts :
  pipelineThrows w = false ->
  let a := fst (analyzeIP w ip0 ua ts) in
  details a !! "riskLevel"
  = Some (VStr (if (70 <=? riskScore a)%Z then "HIGH"
                else if (40 <=? riskScore a)%Z then "MEDIUM" else "LOW"))
  /\ (isBlocked a = true
      <-> if isTrue (STRICT_MODE (env w))
          then details a !! "riskLevel" <> Some (VStr "LOW")
          else details a !! "riskLevel" = Some (VStr "HIGH")).
Proof.
  intros T a.
  assert (L : details a !! "riskLevel"
              = Some (VStr (if (70 <=? riskScore a)%Z then "HIGH"
                            else if (40 <=? riskScore a)%Z then "MEDIUM" else "LOW"))).
  { unfold a. rewrite (analyzeIP_returns w ip0 ua ts T).
    rewrite (proj1 (makeBlockDecision_frame w _)), (proj2 (makeBlockDecision_frame w _)).
    rewrite (proj1 (calculateRiskScore_score _)). apply riskLevel_of_score. }
  split; [exact L|].
  rewrite L. pose proof (analyzeIP_blocked w ip0 ua ts) as B. fold a in B.
  rewrite B. unfold threshold.
  destruct (isTrue _); destruct (Z.leb_spec 70 (riskScore a));
    destruct (Z.leb_spec 40 (riskScore a)); split; intros Hx;
    try lia; try discriminate; try reflexivity; try (now elim Hx).
Qed.

Lemma riskLevel_matches_decision_witness :
  let a := fst (analyzeIP (Sample.reported 90 Sample.strictWithKey) "198.51.100.9"
                  (Some Sample.firefox) TorService.init) in
  details a !! "riskLevel" = Some (VStr "MEDIUM").
Proof.
  exact (proj1 (riskLevel_matches_decision (Sample.reported 90 Sample.strictWithKey)
                  "198.51.100.9" (Some Sample.firefox) TorService.init eq_refl)).
Defined.

End AnalyzerMore.

Section AnalyzerMore2.

Import IPAnalyzer.

Lemma completed_score (w : World) ip0 ua ts :
  pipelineThrows w = false ->
  riskScore (fst (analyzeIP w ip0 ua ts))
  = Z.min (geoPoints w ip0 + torPoints w ip0 ts + vpnPoints w ip0
           + userAgentPoints (match ua with Some s => s | None => "" end)
           + (if isSet (ABUSEIPDB_KEY (env w)) then reputationPoints w ip0 else 0))
          100.
Proof.
  intros T. rewrite (analyzeIP_returns w ip0 ua ts T).
  rewrite (proj1 (makeBlockDecision_frame w _)), (proj1 (calculateRiskScore_score _)).
  rewrite score_of_collect. reflexivity.
Qed.

Lemma completed_flags (w : World) ip0 ua ts :
  pipelineThrows w = false ->
  let d := details (fst (analyzeIP w ip0 ua ts)) in
  d !! "isTor"
  = Some (VBool (fst (TorService.isTorExitNode (now w) (torFeeds w) ip0 ts)))
  /\ truthy (d !! "vpnBlocked") = (vpnPoints w ip0 =? 60)%Z
  /\ truthy (d !! "badReputation")
     = isSet (ABUSEIPDB_KEY (env w)) && (0 <? reputationPoints w ip0)%Z.
Proof.
  intros T. cbv zeta. rewrite (analyzeIP_returns w ip0 ua ts T).
  rewrite (proj2 (makeBlockDecision_frame w _)).
  destruct (calculateRiskScore_flags
              (fst (collect w ip0 (match ua with Some s => s | None => "" end) ts)))
    as (F1 & F2 & F3).
  rewrite F1, F2, F3. apply collect_flags.
Qed.

Lemma torPoints_cases (w : World) ip0 ts :
  (torPoints w ip0 ts = 80
   /\ fst (TorService.isTorExitNode (now w) (torFeeds w) ip0 ts) = true
   /\ BLOCK_VPN_TOR (env w) = Some "true")
  \/ torPoints w ip0 ts = 0.
Proof.
  unfold torPoints, isTrue.
  destruct (fst (TorService.isTorExitNode (now w) (torFeeds w) ip0 ts));
    [|right; reflexivity].
  destruct (BLOCK_VPN_TOR (env w)) as [s|]; [|right; reflexivity].
  destruct (String.eqb_spec s "true") as [->|]; [left|right]; repeat split.
Qed.

(** In normal mode the country and the user agent alone never block:
    a blocked result of a completed pipeline has a Tor exit node under
    the blocking policy, a VPN flag or a reputation flag. *)
Theorem normal_mode_needs_a_listed_signal (w : World) ip0 ua ts :
  pipelineThrows w = false ->
  isTrue (STRICT_MODE (env w)) = false ->
  let a := fst (analyzeIP w ip0 ua ts) in
  isBlocked a = true ->
  (fst (TorService.isTorExitNode (now w) (torFeeds w) ip0 ts) = true
   /\ BLOCK_VPN_TOR (env w) = Some "true")
  \/ truthy (details a !! "vpnBlocked") = true
  \/ truthy (details a !! "badReputation") = true.
Proof.
  intros T N a B.
  destruct (completed_flags w ip0 ua ts T) as (_ & FV & FR). fold a in FV, FR.
  apply (analyzeIP_blocked w ip0 ua ts) in B.
  rewrite (completed_score w ip0 ua ts T) in B.
  unfold threshold in B. rewrite N in B.
  pose proof (geoPoints_le w ip0) as G.
  pose proof (userAgentPoints_le (match ua with Some s => s | None => "" end)) as U.
  rewrite FV, FR.
  destruct (Z.eqb_spec (vpnPoints w ip0) 60) as [|NV]; [right; left; reflexivity|].
  assert (V0 : vpnPoints w ip0 = 0).
  { revert NV. unfold vpnPoints. destruct (isSet (IPAPI_KEY (env w))); [|reflexivity].
    destruct (ipApi w ip0) as [[p|]|]; try reflexivity.
    destruct ((proxy p || hosting p) && isTrue (BLOCK_VPN_TOR (env w)));
      [intros NV; exfalso; apply NV; reflexivity|reflexivity]. }
  destruct (torPoints_cases w ip0 ts) as [(_ & M & P)|T0]; [left; split; assumption|].
  right; right.
  destruct (isSet (ABUSEIPDB_KEY (env w))); cbn [andb]; [|lia].
  apply Z.ltb_lt. lia.
Qed.

Lemma normal_mode_needs_a_listed_signal_witness :
  let a := fst (analyzeIP (Sample.proxied Sample.blockAll) "185.220.101.2"
                  (Some "curl") TorService.init) in
  (fst (TorService.isTorExitNode (now (Sample.proxied Sample.blockAll))
          (torFeeds (Sample.proxied Sample.blockAll)) "185.220.101.2" TorService.init) = true
   /\ BLOCK_VPN_TOR (env (Sample.proxied Sample.blockAll)) = Some "true")
  \/ truthy (details a !! "vpnBlocked") = true
  \/ truthy (details a !! "badReputation") = true.
Proof.
  apply (normal_mode_needs_a_listed_signal (Sample.proxied Sample.blockAll)
           "185.220.101.2" (Some "curl") TorService.init);
    vm_compute; reflexivity.
Defined.

(** A Tor exit node under the blocking policy is blocked in either
    mode, with at least 80 points and the reason TOR_EXIT_NODE. *)
Theorem tor_exit_node_is_blocked (w : World) ip0 ua ts :
  pipelineThrows w = false ->
  fst (TorService.isTorExitNode (now w) (torFeeds w) ip0 ts) = true ->
  BLOCK_VPN_TOR (env w) = Some "true" ->
  let a := fst (analyzeIP w ip0 ua ts) in
  isBlocked a = true /\ reason a = Some TOR_EXIT_NODE /\ 80 <= riskScore a.
Proof.
  intros T M P a.
  assert (S : 80 <= riskScore a).
  { unfold a. rewrite (completed_score w ip0 ua ts T).
    destruct (points_nonneg w ip0 (match ua with Some s => s | None => "" end) ts)
      as (G & _ & V & U & R).
    unfold torPoints. rewrite M, P. cbn [isTrue andb].
    change (String.eqb "true" "true") with true. cbv iota.
    destruct (isSet _); lia. }
  assert (B : isBlocked a = true).
  { apply (analyzeIP_blocked w ip0 ua ts). fold a. unfold threshold.
    destruct (isTrue _); lia. }
  split; [exact B|split; [|exact S]].
  revert B. unfold a. rewrite (analyzeIP_returns w ip0 ua ts T).
  set (c := calculateRiskScore _).
  assert (F : details c !! "isTor" = Some (VBool true)).
  { unfold c. rewrite (proj1 (calculateRiskScore_flags _)).
    rewrite (proj1 (collect_flags w ip0 _ ts)), M. reflexivity. }
  unfold makeBlockDecision. destruct (_ <=? _)%Z.
  - rewrite F. reflexivity.
  - unfold c at 1. rewrite (proj1 (proj2 (calculateRiskScore_score _))).
    rewrite collect_undecided. discriminate.
Qed.

Lemma tor_exit_node_is_blocked_witness :
  let a := fst (analyzeIP (Sample.quiet Sample.blockAll) "185.220.101.2"
                  (Some Sample.firefox) TorService.init) in
  isBlocked a = true /\ reason a = Some TOR_EXIT_NODE /\ 80 <= riskScore a.
Proof.
  apply (tor_exit_node_is_blocked (Sample.quiet Sample.blockAll) "185.220.101.2"
           (Some Sample.firefox) TorService.init);
    vm_compute; reflexivity.
Defined.

(** A request without a user agent, or with one shorter than ten
    characters, never scores below 20, whatever else is known. *)
Theorem short_user_agent_scores_at_least_20 (w : World) ip0 ua ts :
  (String.length (match ua with Some s => s | None => "" end) < 10)%nat ->
  20 <= riskScore (fst (analyzeIP w ip0 ua ts)).
Proof.
  intros L. destruct (pipelineThrows w) eqn:T.
  - rewrite (analyzeIP_throws w ip0 ua ts T). cbn. lia.
  - rewrite (completed_score w ip0 ua ts T).
    destruct (points_nonneg w ip0 (match ua with Some s => s | None => "" end) ts)
      as (G & R & V & _ & P).
    unfold userAgentPoints. rewrite short_is_empty_or_short.
    rewrite bool_decide_eq_true_2 by exact L.
    destruct (looksLikeBot _), (isSet _); lia.
Qed.

Lemma short_user_agent_scores_at_least_20_witness :
  20 <= riskScore (fst (analyzeIP (Sample.quiet Sample.noEnv) "203.0.113.7" None
                          TorService.init)).
Proof.
  apply (short_user_agent_scores_at_least_20 (Sample.quiet Sample.noEnv)
           "203.0.113.7" None TorService.init).
  cbn. lia.
Defined.

(** With BLOCK_VPN_TOR off, neither the Tor list nor the proxy lookup
    changes the score or the decision: two worlds that agree on the
    environment and on the other lookups give the same score. *)
Theorem policy_off_ignores_tor_and_vpn (w1 w2 : World) ip0 ua ts1 ts2 :
  isTrue (BLOCK_VPN_TOR (env w1)) = false ->
  env w2 = env w1 ->
  geoLookup w2 ip0 = geoLookup w1 ip0 ->
  abuseIpDb w2 ip0 = abuseIpDb w1 ip0 ->
  pipelineThrows w1 = pipelineThrows w2 ->
  riskScore (fst (analyzeIP w1 ip0 ua ts1)) = riskScore (fst (analyzeIP w2 ip0 ua ts2))
  /\ isBlocked (fst (analyzeIP w1 ip0 ua ts1)) = isBlocked (fst (analyzeIP w2 ip0 ua ts2)).
Proof.
  intros P E G A T.
  assert (S : riskScore (fst (analyzeIP w1 ip0 ua ts1))
              = riskScore (fst (analyzeIP w2 ip0 ua ts2))).
  { destruct (pipelineThrows w1) eqn:T1.
    - rewrite (analyzeIP_throws w1 ip0 ua ts1 T1).
      rewrite (analyzeIP_throws w2 ip0 ua ts2 (eq_sym T)). reflexivity.
    - rewrite (completed_score w1 ip0 ua ts1 T1).
      rewrite (completed_score w2 ip0 ua ts2 (eq_sym T)).
      unfold geoPoints, torPoints, vpnPoints, reputationPoints.
      rewrite E, G, A, P, !andb_false_r.
      destruct (isSet (IPAPI_KEY _)); [|reflexivity].
      destruct (ipApi w1 ip0) as [[p1|]|], (ipApi w2 ip0) as [[p2|]|];
        rewrite ?andb_false_r; reflexivity. }
  split; [exact S|].
  pose proof (analyzeIP_blocked w1 ip0 ua ts1) as B1.
  pose proof (analyzeIP_blocked w2 ip0 ua ts2) as B2.
  rewrite E, <- S in B2. 
  destruct (isBlocked (fst (analyzeIP w1 ip0 ua ts1))),
           (isBlocked (fst (analyzeIP w2 ip0 ua ts2))); try reflexivity.
  - symmetry. apply B2, B1. reflexivity.
  - apply B1, B2. reflexivity.
Qed.

Lemma policy_off_ignores_tor_and_vpn_witness :
  riskScore (fst (analyzeIP (Sample.quiet Sample.normalWithKey) "185.220.101.2"
                    (Some "curl") TorService.init))
  = riskScore (fst (analyzeIP (Sample.proxied Sample.normalWithKey) "185.220.101.2"
                      (Some "curl") Sample.loaded)).
Proof.
  apply (policy_off_ignores_tor_and_vpn (Sample.quiet Sample.normalWithKey)
           (Sample.proxied Sample.normalWithKey) "185.220.101.2" (Some "curl")
           TorService.init Sample.loaded); reflexivity.
Defined.

End AnalyzerMore2.

Section AnalyzerChecks.

Import IPAnalyzer.

Ltac by_cases :=
  repeat match goal with
         | |- context [match ?x with _ => _ end] => destruct x eqn:?
         | |- context [if ?b then _ else _] => destruct b eqn:?
         end;
  cbn [andb]; try reflexivity.

Lemma analyzeGeoIP_checks (w : World) ip0 a :
  checks (analyzeGeoIP w ip0 a)
  = if answered (geoLookup w ip0) then option_map checkedGeoip (checks a) else checks a.
Proof. unfold analyzeGeoIP, answered. by_cases. Qed.

Lemma checkTorExitNode_checks (w : World) ip0 a ts :
  checks (fst (checkTorExitNode w ip0 a ts)) = option_map checkedTor (checks a).
Proof.
  unfold checkTorExitNode. destruct (TorService.isTorExitNode _ _ _ _) as [b ts'].
  destruct (b && _); reflexivity.
Qed.

Lemma checkVPNProxy_checks (w : World) ip0 a :
  checks (checkVPNProxy w ip0 a)
  = if isSet (IPAPI_KEY (env w)) && answered (ipApi w ip0)
    then option_map checkedVpn (checks a) else checks a.
Proof.
  unfold checkVPNProxy, answered.
  destruct (isSet (IPAPI_KEY (env w))); [|reflexivity].
  destruct (ipApi w ip0) as [[p|]|]; cbn [andb]; try reflexivity.
  destruct ((proxy p || hosting p) && _); reflexivity.
Qed.

Lemma analyzeUserAgent_checks (w : World) ua a :
  checks (analyzeUserAgent w ua a) = option_map checkedUserAgent (checks a).
Proof. unfold analyzeUserAgent. by_cases. Qed.

Lemma checkIPReputation_checks (w : World) ip0 a :
  checks (checkIPReputation w ip0 a)
  = if answered (abuseIpDb w ip0)
    then option_map checkedReputation (checks a) else checks a.
Proof. unfold checkIPReputation, answered. by_cases. Qed.

Lemma decision_keeps_checks (w : World) a :
  checks (makeBlockDecision w (calculateRiskScore a)) = checks a.
Proof. unfold makeBlockDecision, calculateRiskScore. by_cases. Qed.

(** The [checks] of a completed analysis say which lookups produced
    data: the Tor and user-agent checks always, the GeoIP check when
    the address was found, the VPN and reputation checks when their
    key is configured and the service answered with a body. *)
Theorem checks_record_performed_lookups (w : World) ip0 ua ts :
  pipelineThrows w = false ->
  checks (fst (analyzeIP w ip0 ua ts))
  = Some {| geoip := answered (geoLookup w ip0);
            tor := true;
            vpn := isSet (IPAPI_KEY (env w)) && answered (ipApi w ip0);
            userAgent := true;
            reputation := isSet (ABUSEIPDB_KEY (env w)) && answered (abuseIpDb w ip0) |}.
Proof.
  intros T. rewrite (analyzeIP_returns w ip0 ua ts T), decision_keeps_checks.
  unfold collect.
  pose proof (checkTorExitNode_checks w ip0 (analyzeGeoIP w ip0 (newAnalysis ip0)) ts) as C.
  destruct (checkTorExitNode _ _ _ _) as [a1 ts1]. cbn [fst] in *.
  destruct (isSet (ABUSEIPDB_KEY (env w))); cbn [andb];
    rewrite ?checkIPReputation_checks, analyzeUserAgent_checks, checkVPNProxy_checks,
      C, analyzeGeoIP_checks;
    destruct (answered (geoLookup w ip0)), (isSet (IPAPI_KEY (env w))),
      (answered (ipApi w ip0)), (answered (abuseIpDb w ip0)); reflexivity.
Qed.

Lemma checks_record_performed_lookups_witness :
  checks (fst (analyzeIP (Sample.reported 90 Sample.strictWithKey) "198.51.100.9"
                 (Some Sample.firefox) TorService.init))
  = Some {| geoip := false; tor := true; vpn := false;
            userAgent := true; reputation := true |}.
Proof.
  exact (checks_record_performed_lookups (Sample.reported 90 Sample.strictWithKey)
           "198.51.100.9" (Some Sample.firefox) TorService.init eq_refl).
Defined.

End AnalyzerChecks.

(** ** Lists of addresses: trimming and parsing *)

Section ListFacts.

Lemma trimStart_length s : (String.length (JS.trimStart s) <= String.length s)%nat.
Proof.
  induction s as [|c r IH]; cbn [JS.trimStart]; [reflexivity|].
  destruct (JS.is_space c); cbn [String.length]; lia.
Qed.

Lemma trimStart_fixed_head c r :
  JS.trimStart (String c r) = String c r -> JS.is_space c = false.
Proof.
  cbn [JS.trimStart]. destruct (JS.is_space c); [|reflexivity].
  intros E. pose proof (trimStart_length r) as L. rewrite E in L.
  cbn [String.length] in L. lia.
Qed.

Lemma trimStart_idem s : JS.trimStart (JS.trimStart s) = JS.trimStart s.
Proof.
  induction s as [|c r IH]; [reflexivity|]. cbn [JS.trimStart].
  destruct (JS.is_space c) eqn:E; [exact IH|].
  cbn [JS.trimStart]. rewrite E. reflexivity.
Qed.

Lemma trimEnd_idem s : JS.trimEnd (JS.trimEnd s) = JS.trimEnd s.
Proof.
  induction s as [|c r IH]; [reflexivity|]. cbn [JS.trimEnd].
  destruct (JS.trimEnd r) as [|d r'] eqn:E.
  - destruct (JS.is_space c) eqn:S; [reflexivity|].
    cbn [JS.trimEnd]. rewrite S. reflexivity.
  - cbn [JS.trimEnd] in IH |- *. 
    destruct (JS.trimEnd r') as [|d' r''] eqn:E'.
    + destruct (JS.is_space d) eqn:S; [discriminate IH|]. rewrite IH. reflexivity.
    + rewrite IH. reflexivity.
Qed.

Lemma trimEnd_keeps_head t :
  JS.trimStart t = t -> JS.trimStart (JS.trimEnd t) = JS.trimEnd t.
Proof.
  destruct t as [|c r]; [reflexivity|]. intros F.
  apply trimStart_fixed_head in F. cbn [JS.trimEnd].
  destruct (JS.trimEnd r); [rewrite F|]; cbn [JS.trimStart]; rewrite F; reflexivity.
Qed.

(** Trimming twice is trimming once. *)
Lemma trim_idem s : JS.trim (JS.trim s) = JS.trim s.
Proof.
  unfold JS.trim.
  rewrite (trimEnd_keeps_head (JS.trimStart s) (trimStart_idem s)).
  apply trimEnd_idem.
Qed.

(** Every entry read from an exit-node list is a non-empty, trimmed
    line that is not a comment. *)
Theorem parsed_exit_nodes_are_clean data x :
  x ∈ TorService.parseExitNodes data ->
  x <> "" /\ JS.startsWith x "#" = false /\ JS.trim x = x.
Proof.
  unfold TorService.parseExitNodes. intros I. apply list_elem_of_In in I.
  apply filter_In in I as [I F]. apply andb_prop in F as [F1 F2].
  apply in_map_iff in I as (line & <- & _).
  split; [|split].
  - intros E. rewrite E in F1. discriminate.
  - destruct (JS.startsWith _ _); [discriminate|reflexivity].
  - apply trim_idem.
Qed.

Lemma parsed_exit_nodes_are_clean_witness :
  JS.trim "5.6.7.8" = "5.6.7.8".
Proof.
  refine (proj2 (proj2 (parsed_exit_nodes_are_clean
            ("# exits" ++ String "010" (" 1.2.3.4 " ++ String "010" "5.6.7.8  "))
            "5.6.7.8" _))).
  apply list_elem_of_In. vm_compute. right. left. reflexivity.
Defined.

(** Loading the VPN ranges keeps what was loaded before and adds only
    non-empty, trimmed lines; without an answer nothing changes. *)
Theorem loadVPNRanges_only_adds_clean_lines feed (ranges : gset string) :
  ranges ⊆ IPAnalyzer.loadVPNRanges feed ranges
  /\ (forall x, x ∈ IPAnalyzer.loadVPNRanges feed ranges ->
        x ∈ ranges \/ (x <> "" /\ JS.trim x = x))
  /\ (feed = Threw -> IPAnalyzer.loadVPNRanges feed ranges = ranges).
Proof.
  assert (A : forall lines (acc : gset string) x,
            x ∈ List.fold_left (fun acc range => {[ JS.trim range ]} ∪ acc) lines acc
            <-> x ∈ acc \/ exists l, In l lines /\ x = JS.trim l).
  { induction lines as [|l lines IH]; intros acc x; cbn [List.fold_left].
    - split; [tauto|intros [H|(l & [] & _)]; exact H].
    - rewrite IH, elem_of_union, elem_of_singleton. split.
      + intros [[->|H]|(l' & I & ->)]; [right; exists l; split; [left|]; reflexivity
                                        |left; exact H
                                        |right; exists l'; split; [right; exact I|reflexivity]].
      + intros [H|(l' & [<-|I] & ->)]; [left; right; exact H|left; left; reflexivity|].
        right. exists l'. split; [exact I|reflexivity]. }
  unfold IPAnalyzer.loadVPNRanges. split; [|split].
  - destruct feed as [data|]; [|reflexivity].
    destruct (JS.truthy data); [|reflexivity].
    intros x H. apply A. left. exact H.
  - intros x. destruct feed as [data|]; [|left; assumption].
    destruct (JS.truthy data); [|left; assumption].
    intros H. apply A in H as [H|(l & I & ->)]; [left; exact H|right].
    unfold IPAnalyzer.vpnLines in I. apply filter_In in I as [_ F].
    split; [|apply trim_idem].
    intros E. rewrite E in F. discriminate.
  - intros ->. reflexivity.
Qed.

End ListFacts.

(** ** The Tor service: when it refreshes and what it answers *)

Section TorMore.

Import TorService.

Lemma fresh_lookup now f ip0 st u :
  lastUpdate st = Some u -> u <> 0 -> now - u <= updateInterval ->
  isTorExitNode now f ip0 st = (bool_decide (ip0 ∈ torExitNodes st), st).
Proof.
  intros L N F. unfold isTorExitNode, stale. rewrite L.
  destruct (Z.eqb_spec u 0) as [|_]; [contradiction|].
  destruct (Z.ltb_spec updateInterval (now - u)); [lia|]. reflexivity.
Qed.

(** A snapshot less than an hour old is answered from: no list is
    fetched and the service is left as it was, whatever the lists
    would say. *)
Theorem fresh_snapshot_is_not_refreshed now f ip0 st u :
  lastUpdate st = Some u -> u <> 0 -> now - u <= updateInterval ->
  isTorExitNode now f ip0 st = (bool_decide (ip0 ∈ torExitNodes st), st)
  /\ stale now st = false.
Proof.
  intros L N F. split; [exact (fresh_lookup now f ip0 st u L N F)|].
  unfold stale. rewrite L.
  destruct (Z.eqb_spec u 0) as [|_]; [contradiction|].
  destruct (Z.ltb_spec updateInterval (now - u)); [lia|]. reflexivity.
Qed.

Lemma fresh_snapshot_is_not_refreshed_witness :
  isTorExitNode (1699990000000 + 3600000) (Sample.primaryDown Threw)
    "199.87.154.255" Sample.loaded
  = (bool_decide ("199.87.154.255" ∈ torExitNodes Sample.loaded), Sample.loaded).
Proof.
  apply (proj1 (fresh_snapshot_is_not_refreshed (1699990000000 + 3600000)
                  (Sample.primaryDown Threw) "199.87.154.255" Sample.loaded 1699990000000
                  eq_refl ltac:(lia) ltac:(unfold updateInterval; lia))).
Defined.

(** A stale service whose primary list answers is replaced by that
    list: the lookup is true exactly for the parsed entries, and for
    the next hour the lists are not asked again. *)
Theorem stale_snapshot_is_replaced now f ip0 st data :
  stale now st = true ->
  torbulkexitlist f = Returned data -> JS.truthy data = true ->
  let out := isTorExitNode now f ip0 st in
  (fst out = true <-> ip0 ∈ parseExitNodes data)
  /\ lastUpdate (snd out) = Some now
  /\ (forall now' f' ip1,
        now <> 0 -> now' - now <= updateInterval ->
        isTorExitNode now' f' ip1 (snd out)
        = (bool_decide (ip1 ∈ parseExitNodes data), snd out)).
Proof.
  intros S P D out.
  assert (E : out = (bool_decide (ip0 ∈ (list_to_set (parseExitNodes data) : gset string)),
                     {| torExitNodes := list_to_set (parseExitNodes data);
                        lastUpdate := Some now |})).
  { unfold out, isTorExitNode. rewrite S, (primary_replaces now f st data P D).
    reflexivity. }
  rewrite E. cbn [fst snd lastUpdate]. split; [|split; [reflexivity|]].
  - rewrite bool_decide_eq_true, elem_of_list_to_set. reflexivity.
  - intros now' f' ip1 N F.
    rewrite (fresh_lookup now' f' ip1
               {| torExitNodes := list_to_set (parseExitNodes data);
                  lastUpdate := Some now |} now eq_refl N F).
    cbn [torExitNodes]. f_equal. apply bool_decide_ext.
    rewrite elem_of_list_to_set. reflexivity.
Qed.

Lemma stale_snapshot_is_replaced_witness :
  fst (isTorExitNode 1700000000000 (IPAnalyzer.torFeeds (Sample.quiet Sample.noEnv))
         "185.220.101.2" TorService.init) = true.
Proof.
  apply (proj1 (stale_snapshot_is_replaced 1700000000000
                  (IPAnalyzer.torFeeds (Sample.quiet Sample.noEnv))
                  "185.220.101.2" TorService.init _ eq_refl eq_refl eq_refl)).
  apply list_elem_of_In. vm_compute. right. left. reflexivity.
Defined.

(** An empty body from the primary list changes nothing: the mirror
    is not asked, the old set answers, and the service stays stale. *)
Theorem empty_primary_body_is_ignored now f ip0 st :
  stale now st = true ->
  torbulkexitlist f = Returned "" ->
  isTorExitNode now f ip0 st = (bool_decide (ip0 ∈ torExitNodes st), st)
  /\ stale now (snd (isTorExitNode now f ip0 st)) = true.
Proof.
  intros S P. unfold isTorExitNode, updateTorExitNodes. rewrite S, P.
  cbn [JS.truthy snd]. split; [reflexivity|exact S].
Qed.

Lemma empty_primary_body_is_ignored_witness :
  isTorExitNode 1700000000000
    {| torbulkexitlist := Returned ""; mirrorList := Returned "185.220.101.1" |}
    "185.220.101.1" TorService.init
  = (false, TorService.init).
Proof.
  apply (proj1 (empty_primary_body_is_ignored 1700000000000
                  {| torbulkexitlist := Returned ""; mirrorList := Returned "185.220.101.1" |}
                  "185.220.101.1" TorService.init eq_refl eq_refl)).
Defined.

(** A service that never loaded a list and can reach neither source
    treats exactly the five built-in addresses as exit nodes. *)
Theorem unreachable_lists_leave_builtin_nodes now f ip0 :
  torbulkexitlist f = Threw -> mirrorList f = Threw ->
  (fst (isTorExitNode now f ip0 TorService.init) = true <-> ip0 ∈ knownExitNodes).
Proof.
  intros P M. unfold isTorExitNode. cbn [stale lastUpdate init].
  rewrite (hardcoded_adds now f _ P M). cbn [fst torExitNodes].
  rewrite bool_decide_eq_true, elem_of_union, elem_of_list_to_set.
  split; [intros [H|H]; [exact H|]|tauto].
  apply not_elem_of_empty in H. contradiction.
Qed.

Lemma unreachable_lists_leave_builtin_nodes_witness :
  fst (isTorExitNode 1700000000000 (Sample.primaryDown Threw) "104.244.76.13"
         TorService.init) = true.
Proof.
  apply (unreachable_lists_leave_builtin_nodes 1700000000000 (Sample.primaryDown Threw)
           "104.244.76.13" eq_refl eq_refl).
  apply list_elem_of_In. right. left. reflexivity.
Defined.

End TorMore.

(** ** The cache: what a stored analysis is good for *)

Section CacheMore.

Import CacheService.

(** A stored value is returned until its time to live has passed,
    the last millisecond included; after that the lookup misses and
    the key is gone. *)
Theorem cached_value_lives_for_its_ttl t0 t1 key value ttl st data :
  cache st = Some data -> 0 < ttl -> 0 <= t0 ->
  let st1 := snd (set t0 key value ttl st) in
  (t1 <= t0 + ttl * 1000 -> fst (get t1 key st1) = Some value)
  /\ (t0 + ttl * 1000 < t1 ->
      fst (get t1 key st1) = None
      /\ cache (snd (get t1 key st1)) = Some (delete key data)).
Proof.
  intros C T N st1.
  assert (E : cache st1 = Some (<[ key := {| NodeCache.v := value;
                                             NodeCache.t := t0 + ttl * 1000 |} ]> data)).
  { unfold st1, set, NodeCache.set. rewrite C. cbn [snd cache].
    destruct (Z.eqb_spec ttl 0); [lia|reflexivity]. }
  unfold get, NodeCache.get. rewrite E, lookup_insert_eq.
  unfold NodeCache.expired. cbn [NodeCache.t NodeCache.v].
  destruct (Z.eqb_spec (t0 + ttl * 1000) 0); [nia|]. cbn [negb andb].
  split; intros H.
  - destruct (Z.ltb_spec (t0 + ttl * 1000) t1); [lia|]. reflexivity.
  - destruct (Z.ltb_spec (t0 + ttl * 1000) t1); [|lia]. cbn [fst snd cache].
    rewrite delete_insert_eq. split; reflexivity.
Qed.

Lemma cached_value_lives_for_its_ttl_witness :
  let st := initialize init in
  let a := IPAnalyzer.analysisFailed "203.0.113.7" in
  fst (get 300000 "analysis:203.0.113.7" (snd (set 0 "analysis:203.0.113.7" a 300 st)))
  = Some a.
Proof.
  cbv zeta.
  apply (proj1 (cached_value_lives_for_its_ttl 0 300000 "analysis:203.0.113.7"
                  (IPAnalyzer.analysisFailed "203.0.113.7") 300 (initialize init) ∅
                  eq_refl ltac:(lia) ltac:(lia))).
  lia.
Defined.

(** Storing under one key leaves what the other keys answer. *)
Theorem set_leaves_other_keys t0 t1 key key' value ttl st :
  key' <> key ->
  fst (get t1 key' (snd (set t0 key value ttl st))) = fst (get t1 key' st).
Proof.
  intros N. unfold get, set, NodeCache.get, NodeCache.set.
  destruct (cache st) as [data|] eqn:C; cbn [snd cache]; [|rewrite C; reflexivity].
  rewrite lookup_insert_ne by congruence.
  destruct (data !! key') as [e|]; [|reflexivity].
  destruct (NodeCache.expired t1 e); reflexivity.
Qed.

Lemma set_leaves_other_keys_witness :
  fst (get 5 "analysis:198.51.100.9"
         (snd (set 0 "analysis:203.0.113.7" (IPAnalyzer.analysisFailed "203.0.113.7")
                 300 (initialize init))))
  = fst (get 5 "analysis:198.51.100.9" (initialize init)).
Proof.
  apply set_leaves_other_keys. discriminate.
Defined.

(** [del] reports whether the key was there, expired or not, and a
    deleted key misses; [clear] and [cleanup] make every key miss. *)
Theorem deleted_and_cleared_keys_miss now key st :
  fst (get now key (snd (del key st))) = None
  /\ (fst (del key st) = true
      <-> exists data e, cache st = Some data /\ data !! key = Some e)
  /\ fst (get now key (snd (clear st))) = None
  /\ fst (get now key (cleanup st)) = None.
Proof.
  unfold get, del, clear, cleanup, NodeCache.get, NodeCache.del, NodeCache.flushAll.
  destruct (cache st) as [data|] eqn:C; cbn [fst snd cache].
  - split; [|split; [|split]].
    + destruct (data !! key) as [e|] eqn:L; cbn [fst snd cache].
      * rewrite lookup_delete_eq. reflexivity.
      * rewrite L. reflexivity.
    + destruct (data !! key) as [e|] eqn:L; cbn [fst].
      * split; [intros _; exists data, e; split; [reflexivity|exact L]|reflexivity].
      * split; [discriminate|]. intros (d & e & D & H).
        injection D as <-. rewrite L in H. discriminate.
    + rewrite lookup_empty. reflexivity.
    + rewrite lookup_empty. reflexivity.
  - rewrite C. cbn [fst]. split; [reflexivity|split; [|split; reflexivity]].
    split; [discriminate|]. intros (d & e & D & _). discriminate.
Qed.

(** Before [initialize] the cache never answers and stores nothing:
    every lookup misses, every store reports failure, and the service
    is left as it was. *)
Theorem uninitialised_cache_is_inert now key value ttl st :
  cache st = None ->
  get now key st = (None, st) /\ set now key value ttl st = (false, st).
Proof.
  intros C. unfold get, set. rewrite C. split; reflexivity.
Qed.

Lemma uninitialised_cache_is_inert_witness :
  get 0 "analysis:203.0.113.7" init = (None, init).
Proof.
  apply (proj1 (uninitialised_cache_is_inert 0 "analysis:203.0.113.7"
                  (IPAnalyzer.analysisFailed "203.0.113.7") 300 init eq_refl)).
Defined.

(** Each lookup on a started cache is counted once, as a hit when it
    answers and as a miss when it does not. *)
Theorem lookups_are_counted_once now key st data :
  cache st = Some data ->
  let out := get now key st in
  hits (stats (snd out))
  = hits (stats st) + match fst out with Some _ => 1 | None => 0 end
  /\ misses (stats (snd out))
     = misses (stats st) + match fst out with Some _ => 0 | None => 1 end
  /\ sets (stats (snd out)) = sets (stats st).
Proof.
  intros C. cbv zeta. unfold get. rewrite C.
  destruct (NodeCache.get now key data) as [[a|] data']; cbn; repeat split; lia.
Qed.

Lemma lookups_are_counted_once_witness :
  misses (stats (snd (get 0 "analysis:203.0.113.7" (initialize init)))) = 1.
Proof.
  exact (proj1 (proj2 (lookups_are_counted_once 0 "analysis:203.0.113.7"
                         (initialize init) ∅ eq_refl))).
Defined.

End CacheMore.

(** ** The log service: nothing is lost, the buffer stays bounded *)

Section LogMore.

Import LogService.

Lemma flush_keeps_held d st : heldToday d (flushLogsToDisk d st) = heldToday d st.
Proof.
  unfold heldToday, flushLogsToDisk.
  destruct (requestLogs st) as [|e r] eqn:B; [rewrite B; reflexivity|].
  destruct (writeFails d); [rewrite B; reflexivity|].
  cbn [files requestLogs]. rewrite lookup_insert_eq, app_nil_r. reflexivity.
Qed.

(** Logging a request adds exactly its entry to what today's file and
    the buffer hold together, in order, whether or not a flush
    happens and whether or not the disk can be written; the files of
    other days are not touched. *)
Theorem logRequest_adds_one_entry d r st :
  let st' := logRequest d r st in
  heldToday d st' = (heldToday d st ++ [logEntry r])%list
  /\ (forall name, name <> logFile d -> files st' !! name = files st !! name).
Proof.
  cbv zeta. unfold logRequest. cbn [requestLogs].
  set (st1 := {| requestLogs := (requestLogs st ++ [logEntry r])%list;
                 files := files st |}).
  destruct (maxLogsInMemory <=? _)%nat.
  - split.
    + rewrite flush_keeps_held. unfold heldToday. cbn [files requestLogs st1].
      apply app_assoc.
    + intros name N. unfold flushLogsToDisk.
      destruct (requestLogs st1); [reflexivity|].
      destruct (writeFails d); [reflexivity|].
      cbn [files]. apply lookup_insert_ne. congruence.
  - split; [|reflexivity]. unfold heldToday. cbn [files requestLogs st1].
    apply app_assoc.
Qed.

(** With a writable disk the buffer never holds 1000 entries after a
    call, whatever it held before; when the write fails the entry
    stays in the buffer and the files are unchanged. *)
Theorem buffer_is_flushed_at_the_cap d r st :
  (writeFails d = false ->
   (length (requestLogs (logRequest d r st)) < maxLogsInMemory)%nat)
  /\ (writeFails d = true ->
      logRequest d r st
      = {| requestLogs := (requestLogs st ++ [logEntry r])%list; files := files st |}).
Proof.
  unfold logRequest. cbn [requestLogs].
  destruct (Nat.leb_spec maxLogsInMemory (length (requestLogs st ++ [logEntry r]))) as [H|H].
  - unfold flushLogsToDisk. cbn [requestLogs files].
    destruct (requestLogs st ++ [logEntry r])%list as [|e l] eqn:E.
    + apply app_eq_nil in E as [_ E]. discriminate.
    + split; intros W; rewrite W; [|reflexivity].
      cbn [requestLogs length]. unfold maxLogsInMemory. lia.
  - split; intros W; [exact H|reflexivity].
Qed.

Lemma buffer_is_flushed_at_the_cap_witness :
  (length (requestLogs
     (logRequest {| today := "2023-11-14"; writeFails := false |}
        (GuardianMiddleware.requestData (Sample.host (Sample.quiet Sample.noEnv) "r1")
           (Sample.request "curl") (IPAnalyzer.analysisFailed "203.0.113.7"))
        init)) < maxLogsInMemory)%nat.
Proof.
  apply (proj1 (buffer_is_flushed_at_the_cap
                  {| today := "2023-11-14"; writeFails := false |}
                  (GuardianMiddleware.requestData (Sample.host (Sample.quiet Sample.noEnv) "r1")
                     (Sample.request "curl") (IPAnalyzer.analysisFailed "203.0.113.7"))
                  init)).
  reflexivity.
Defined.

(** *** Recent logs *)

Lemma insertNewestFirst_perm e l : Permutation (insertNewestFirst e l) (e :: l).
Proof.
  induction l as [|x r IH]; cbn [insertNewestFirst]; [reflexivity|].
  destruct (timestamp e <? timestamp x)%Z; [|reflexivity].
  rewrite IH. apply perm_swap.
Qed.

Lemma sortNewestFirst_perm l : Permutation (sortNewestFirst l) l.
Proof.
  induction l as [|e r IH]; cbn [sortNewestFirst]; [reflexivity|].
  rewrite insertNewestFirst_perm, IH. reflexivity.
Qed.

Lemma insertNewestFirst_sorted e l :
  StronglySorted newerFirst l -> StronglySorted newerFirst (insertNewestFirst e l).
Proof.
  induction 1 as [|x r S IH F]; cbn [insertNewestFirst].
  - repeat constructor.
  - destruct (Z.ltb_spec (timestamp e) (timestamp x)) as [L|L].
    + constructor; [exact IH|].
      rewrite insertNewestFirst_perm. constructor; [unfold newerFirst; lia|exact F].
    + constructor; [constructor; assumption|].
      constructor; [exact L|].
      eapply Forall_impl; [exact F|]. unfold newerFirst. intros y Y. cbv beta in Y. lia.
Qed.

Lemma sortNewestFirst_sorted l : StronglySorted newerFirst (sortNewestFirst l).
Proof.
  induction l as [|e r IH]; cbn [sortNewestFirst]; [constructor|].
  apply insertNewestFirst_sorted, IH.
Qed.

Lemma in_firstn {A} (x : A) n l : In x (firstn n l) -> In x l.
Proof.
  intros H. rewrite <- (firstn_skipn n l). apply in_or_app. left. exact H.
Qed.

Lemma in_skipn {A} (x : A) n l : In x (skipn n l) -> In x l.
Proof.
  intros H. rewrite <- (firstn_skipn n l). apply in_or_app. right. exact H.
Qed.

Lemma firstn_sorted {A} (R : A -> A -> Prop) n l :
  StronglySorted R l -> StronglySorted R (firstn n l).
Proof.
  intros S. revert n. induction S as [|x r S IH F]; intros [|n]; cbn [firstn];
    try constructor.
  - apply IH.
  - apply Forall_forall. intros y Y. apply list_elem_of_In, in_firstn in Y.
    rewrite Forall_forall in F. apply F, list_elem_of_In, Y.
Qed.

Lemma slice_head {A} (l : list A) limit :
  0 <= limit -> JS.slice l 0 limit = firstn (Z.to_nat limit) l.
Proof.
  intros L. unfold JS.slice, JS.relIndex.
  destruct (Z.ltb_spec 0 0); [lia|].
  destruct (Z.ltb_spec limit 0); [lia|].
  rewrite (Z.min_l 0) by lia. change (skipn (Z.to_nat 0) l) with l. rewrite Z.sub_0_r.
  destruct (Z.min_spec limit (Z.of_nat (length l))) as [[_ ->]|[Hm ->]]; [reflexivity|].
  rewrite Nat2Z.id, firstn_all. symmetry. apply firstn_all2. lia.
Qed.

Lemma sliceFrom_sub {A} (l : list A) start x : In x (JS.sliceFrom l start) -> In x l.
Proof.
  unfold JS.sliceFrom, JS.slice. intros H.
  apply in_firstn in H. apply in_skipn in H. exact H.
Qed.

Lemma sliceFrom_all {A} (l : list A) limit :
  Z.of_nat (length l) <= limit -> JS.sliceFrom l (- limit) = l.
Proof.
  intros L. unfold JS.sliceFrom, JS.slice, JS.relIndex.
  set (len := Z.of_nat (length l)) in *.
  assert (K : (if (- limit <? 0)%Z then Z.max (len + - limit) 0 else Z.min (- limit) len) = 0).
  { destruct (Z.ltb_spec (- limit) 0); lia. }
  rewrite K. destruct (Z.ltb_spec len 0); [lia|].
  rewrite Z.min_id, Z.sub_0_r. change (skipn (Z.to_nat 0) l) with l. unfold len.
  rewrite Nat2Z.id. apply firstn_all.
Qed.

(** [getRecentLogs(limit)] for a non-negative limit returns at most
    [limit] entries, newest first, each taken from the buffer or from
    today's file; when the buffer and the file together hold no more
    than [limit] entries it returns all of them. *)
Theorem getRecentLogs_newest_first d limit st :
  0 <= limit ->
  let logs := getRecentLogs d limit st in
  (Z.of_nat (length logs) <= limit)
  /\ StronglySorted newerFirst logs
  /\ (forall e, In e logs -> In e (heldToday d st))
  /\ (Z.of_nat (length (heldToday d st)) <= limit ->
      Permutation logs (heldToday d st)).
Proof.
  intros L logs. unfold logs, getRecentLogs, heldToday.
  rewrite slice_head by exact L.
  assert (S : forall (l : list LogEntry) s, (length (JS.sliceFrom l s) <= length l)%nat).
  { intros l s. unfold JS.sliceFrom, JS.slice. rewrite length_firstn, length_skipn. lia. }
  split; [|split; [|split]].
  - rewrite length_firstn. lia.
  - apply firstn_sorted, sortNewestFirst_sorted.
  - intros e H. apply in_firstn in H.
    apply (Permutation_in _ (sortNewestFirst_perm _)) in H.
    apply in_or_app.
    apply in_app_or in H as [H|H]; [left|right; eapply sliceFrom_sub, H].
    destruct (files st !! logFile d); [eapply sliceFrom_sub, H|exact H].
  - rewrite length_app. intros T. rewrite firstn_all2.
    + rewrite sortNewestFirst_perm.
      rewrite (sliceFrom_all (requestLogs st)) by lia.
      destruct (files st !! logFile d) as [l|]; [|reflexivity].
      rewrite (sliceFrom_all l) by lia. reflexivity.
    + rewrite (Permutation_length (sortNewestFirst_perm _)), length_app.
      pose proof (S (requestLogs st) (- limit)).
      destruct (files st !! logFile d) as [l|].
      * pose proof (S l (- limit)). lia.
      * cbn [length] in *. lia.
Qed.

Lemma getRecentLogs_newest_first_witness :
  let d := {| today := "2023-11-14"; writeFails := false |} in
  let st := GuardianMiddleware.logService
              (snd (GuardianMiddleware.analyze
                      (Sample.host (Sample.quiet Sample.noEnv) "r1")
                      (Sample.request "curl") Sample.started)) in
  Permutation (getRecentLogs d 100 st) (heldToday d st).
Proof.
  intros d st.
  apply (proj2 (proj2 (proj2 (getRecentLogs_newest_first d 100 st ltac:(lia))))).
  vm_compute. discriminate.
Defined.

End LogMore.

(** *** Statistics *)

Section StatsMore.

Import LogService.

Lemma filter_split {A} (f : A -> bool) l :
  (length l = length (List.filter f l) + length (List.filter (fun x => negb (f x)) l))%nat.
Proof.
  induction l as [|x l IH]; [reflexivity|]. cbn [List.filter].
  destruct (f x); cbn [negb length]; lia.
Qed.

Lemma filter_length_le {A} (f : A -> bool) l :
  (length (List.filter f l) <= length l)%nat.
Proof. pose proof (filter_split f l). lia. Qed.

Lemma filter_filter_le {A} (f g : A -> bool) l :
  (length (List.filter f (List.filter g l)) <= length (List.filter f l))%nat.
Proof.
  induction l as [|x l IH]; [reflexivity|]. cbn [List.filter].
  destruct (g x), (f x) eqn:E; cbn [List.filter length]; rewrite ?E; cbn [length]; lia.
Qed.

Lemma getRecentLogs_length d st :
  (length (getRecentLogs d 1000 st) <= 1000)%nat.
Proof.
  unfold getRecentLogs, JS.slice.
  rewrite length_firstn. unfold JS.relIndex.
  match goal with |- context [Z.of_nat ?n] => generalize n end. intros n.
  change (1000 <? 0)%Z with false. change (0 <? 0)%Z with false. cbv iota.
  lia.
Qed.

(** The counters of [getStats] add up: every sampled record is blocked
    or allowed, the sample holds at most 1000 records, and the
    last-hour counters are bounded by the totals. *)
Theorem stats_counters_add_up d now st :
  let s := getStats d now st in
  (totalRequests s = blockedRequests s + allowedRequests s)%nat
  /\ (totalRequests s <= 1000)%nat
  /\ (lh_blocked (lastHour s) <= total (lastHour s))%nat
  /\ (total (lastHour s) <= totalRequests s)%nat
  /\ (lh_blocked (lastHour s) <= blockedRequests s)%nat.
Proof.
  cbv zeta. unfold getStats. pose proof (getRecentLogs_length d st) as B.
  destruct (getRecentLogs d 1000 st) as [|e l] eqn:E; unfold statsOf.
  - cbn. lia.
  - cbn [totalRequests blockedRequests allowedRequests lastHour total lh_blocked].
    rewrite <- E in *. clear E.
    pose proof (filter_split (fun log => blocked log) (getRecentLogs d 1000 st)).
    pose proof (filter_length_le (fun log => (now - 3600000 <? timestamp log)%Z)
                  (getRecentLogs d 1000 st)).
    pose proof (filter_length_le (fun log => blocked log)
                  (List.filter (fun log => (now - 3600000 <? timestamp log)%Z)
                     (getRecentLogs d 1000 st))).
    pose proof (filter_filter_le (fun log => blocked log)
                  (fun log => (now - 3600000 <? timestamp log)%Z)
                  (getRecentLogs d 1000 st)).
    lia.
Qed.

Lemma tally_from keys (m : gmap string nat) k :
  List.fold_left
    (fun m k => <[ k := (match m !! k with Some n => n | None => 0 end + 1)%nat ]> m)
    keys m !! k
  = match (length (List.filter (String.eqb k) keys)) with
    | O => m !! k
    | S n => Some (match m !! k with Some c => c | None => 0 end + S n)%nat
    end.
Proof.
  revert m. induction keys as [|x keys IH]; intros m; [reflexivity|].
  cbn [List.fold_left List.filter]. rewrite IH.
  destruct (String.eqb_spec k x) as [->|N].
  - rewrite lookup_insert_eq. cbn [length].
    destruct (length (List.filter (String.eqb x) keys)); f_equal; lia.
  - rewrite lookup_insert_ne by congruence. reflexivity.
Qed.

(** The two histograms of [getStats] count records: a country (or
    'Unknown') is listed with the number of sampled records from it,
    a reason with the number of blocked records that carry it, and
    what does not occur is not listed. *)
Theorem stats_histograms_count_records d now st key :
  let logs := getRecentLogs d 1000 st in
  let s := getStats d now st in
  topCountries s !! key
  = match length (List.filter (fun log => String.eqb key (countryKey log)) logs) with
    | O => None
    | n => Some n
    end
  /\ topBlockReasons s !! key
     = match length (List.filter
                       (fun log => blocked log && String.eqb key (reasonKey (reason log)))
                       logs) with
       | O => None
       | n => Some n
       end.
Proof.
  cbv zeta. unfold getStats.
  assert (M : forall (f : LogEntry -> string) l,
            List.filter (String.eqb key) (List.map f l)
            = List.map f (List.filter (fun log => String.eqb key (f log)) l)).
  { intros f l. induction l as [|x l IH]; [reflexivity|]. cbn [List.map List.filter].
    destruct (String.eqb key (f x)); cbn [List.map]; rewrite IH; reflexivity. }
  assert (F : forall (f g : LogEntry -> bool) l,
            List.filter f (List.filter g l) = List.filter (fun x => g x && f x) l).
  { intros f g l. induction l as [|x l IH]; [reflexivity|]. cbn [List.filter].
    destruct (g x); cbn [andb List.filter]; [destruct (f x)|]; rewrite IH; reflexivity. }
  destruct (getRecentLogs d 1000 st) as [|e l] eqn:E; unfold statsOf;
    [split; reflexivity|].
  cbn [topCountries topBlockReasons]. unfold tally.
  rewrite !tally_from, !M, !length_map, F, lookup_empty.
  split.
  - destruct (length _); [reflexivity|]. f_equal.
  - destruct (length _); [reflexivity|]. f_equal.
Qed.

End StatsMore.

(** ** The middleware: who the client is and when it is evaluated *)

Section MiddlewareMore.

Import GuardianMiddleware.

Lemma or_else_truthy a b s :
  JS.or_else a b = Some s -> (forall t, b = Some t -> JS.truthy t = true) ->
  JS.truthy s = true.
Proof.
  unfold JS.or_else. destruct a as [x|]; [|intros E H; exact (H s E)].
  destruct (JS.truthy x) eqn:T; [intros E _; congruence|intros E H; exact (H s E)].
Qed.

(** The client address is never empty: when no header and no socket
    gives one, it is 127.0.0.1. *)
Theorem getClientIP_is_never_empty req :
  getClientIP req <> ""
  /\ (headers req !! "x-forwarded-for" = None ->
      headers req !! "x-real-ip" = None ->
      connection_remoteAddress req = None ->
      socket_remoteAddress req = None ->
      req_ip req = None ->
      getClientIP req = "127.0.0.1").
Proof.
  split.
  - unfold getClientIP.
    destruct (JS.or_else _ _) as [s|] eqn:E; [|discriminate].
    assert (T : JS.truthy s = true).
    { eapply or_else_truthy; [exact E|]. intros t1 E1.
      eapply or_else_truthy; [exact E1|]. intros t2 E2.
      eapply or_else_truthy; [exact E2|]. intros t3 E3.
      eapply or_else_truthy; [exact E3|]. intros t4 E4.
      eapply or_else_truthy; [exact E4|]. intros t5 E5.
      injection E5 as <-. reflexivity. }
    intros Z. rewrite Z in T. discriminate.
  - intros F R C S I. unfold getClientIP. rewrite F, R, C, S, I. reflexivity.
Qed.

Lemma getClientIP_is_never_empty_witness :
  getClientIP {| headers := ∅; connection_remoteAddress := None;
                 socket_remoteAddress := None; req_ip := None;
                 req_url := "/verify"; req_method := "GET" |}
  = "127.0.0.1".
Proof.
  apply (proj2 (getClientIP_is_never_empty
                  {| headers := ∅; connection_remoteAddress := None;
                     socket_remoteAddress := None; req_ip := None;
                     req_url := "/verify"; req_method := "GET" |}));
    reflexivity.
Defined.

(** The first entry of X-Forwarded-For, trimmed, is the client address
    whenever it is not blank, whatever the socket says. *)
Theorem forwarded_header_decides_the_address req h p ps :
  headers req !! "x-forwarded-for" = Some h ->
  JS.split "," h = p :: ps ->
  JS.trim p <> "" ->
  getClientIP req = JS.trim p.
Proof.
  intros H S N. unfold getClientIP, firstForwarded. rewrite H, S.
  unfold JS.or_else at 1.
  destruct (JS.trim p) as [|c r]; [contradiction|]. reflexivity.
Qed.

Lemma forwarded_header_decides_the_address_witness :
  getClientIP (Sample.request "curl") = JS.trim "203.0.113.7".
Proof.
  apply (forwarded_header_decides_the_address (Sample.request "curl")
           "203.0.113.7, 10.0.0.1" "203.0.113.7" [" 10.0.0.1"]).
  - vm_compute. reflexivity.
  - reflexivity.
  - discriminate.
Defined.

Lemma analyzeIP_score_range (w : IPAnalyzer.World) ip0 ua ts :
  0 <= IPAnalyzer.riskScore (fst (IPAnalyzer.analyzeIP w ip0 ua ts)) <= 100.
Proof.
  destruct (IPAnalyzer.pipelineThrows w) eqn:T.
  - rewrite (analyzeIP_throws w ip0 ua ts T). cbn. lia.
  - rewrite (analyzeIP_returns w ip0 ua ts T).
    rewrite (proj1 (makeBlockDecision_frame w _)), (proj1 (calculateRiskScore_score _)).
    rewrite score_of_collect.
    destruct (points_nonneg w ip0 (match ua with Some s => s | None => "" end) ts)
      as (G & R & V & U & P).
    destruct (IPAnalyzer.isSet _); lia.
Qed.

(** A request that misses the cache is answered from its own
    evaluation: 403 with the reason when its score reaches the
    threshold of the mode, 418 with the details otherwise, the score
    between 0 and 100 either way. *)
Theorem miss_is_answered_by_threshold h req sv cs :
  CacheService.get (IPAnalyzer.now (world h)) (cacheKey (getClientIP req))
    (cacheService sv) = (None, cs) ->
  let a := fst (IPAnalyzer.analyzeIP (world h) (getClientIP req)
                  (Some (userAgentOf req)) (torService sv)) in
  fst (analyze h req sv)
  = (if (IPAnalyzer.threshold (IPAnalyzer.env (world h)) <=? IPAnalyzer.riskScore a)%Z
     then Status403 (IPAnalyzer.reason a) (IPAnalyzer.riskScore a) (freshRequestId h)
     else Status418 (IPAnalyzer.riskScore a) (IPAnalyzer.details a) (freshRequestId h))
  /\ 0 <= IPAnalyzer.riskScore a <= 100.
Proof.
  intros G a. split; [|apply analyzeIP_score_range].
  rewrite (proj1 (analyze_miss h req sv cs G)). fold a. unfold handleResult.
  pose proof (analyzeIP_blocked (world h) (getClientIP req) (Some (userAgentOf req))
                (torService sv)) as B. fold a in B.
  destruct (Z.leb_spec (IPAnalyzer.threshold (IPAnalyzer.env (world h)))
              (IPAnalyzer.riskScore a)) as [L|L].
  - rewrite (proj2 B L). reflexivity.
  - destruct (IPAnalyzer.isBlocked a); [|reflexivity].
    assert (IPAnalyzer.threshold (IPAnalyzer.env (world h)) <= IPAnalyzer.riskScore a)
      by (apply B; reflexivity). lia.
Qed.

Lemma miss_is_answered_by_threshold_witness :
  fst (analyze (Sample.host (Sample.quiet Sample.noEnv) "r1") (Sample.request "curl")
         Sample.started)
  = Status418 35
      (IPAnalyzer.details
         (fst (IPAnalyzer.analyzeIP (Sample.quiet Sample.noEnv) "203.0.113.7"
                 (Some "curl") (torService Sample.started))))
      "r1".
Proof.
  pose proof (proj1 (miss_is_answered_by_threshold
                       (Sample.host (Sample.quiet Sample.noEnv) "r1")
                       (Sample.request "curl") Sample.started
                       (snd (CacheService.get 1700000000000 "analysis:203.0.113.7"
                               (cacheService Sample.started)))
                       ltac:(vm_compute; reflexivity))) as H.
  rewrite H. vm_compute. reflexivity.
Defined.

(** The cached decision of an address holds for 300 seconds, the last
    millisecond included, for any user agent; a request that comes
    later is evaluated again. *)
Theorem cached_decision_window h1 req1 h2 req2 sv data cs :
  CacheService.cache (cacheService sv) = Some data ->
  CacheService.get (IPAnalyzer.now (world h1)) (cacheKey (getClientIP req1))
    (cacheService sv) = (None, cs) ->
  getClientIP req2 = getClientIP req1 ->
  0 <= IPAnalyzer.now (world h1) ->
  let sv1 := snd (analyze h1 req1 sv) in
  (IPAnalyzer.now (world h2) <= IPAnalyzer.now (world h1) + 300 * 1000 ->
   fst (analyze h2 req2 sv1)
   = handleResult
       (fst (IPAnalyzer.analyzeIP (world h1) (getClientIP req1)
               (Some (userAgentOf req1)) (torService sv)))
       (freshRequestId h2))
  /\ (IPAnalyzer.now (world h1) + 300 * 1000 < IPAnalyzer.now (world h2) ->
      fst (analyze h2 req2 sv1)
      = handleResult
          (fst (IPAnalyzer.analyzeIP (world h2) (getClientIP req2)
                  (Some (userAgentOf req2)) (torService sv1)))
          (freshRequestId h2)).
Proof.
  intros C G I N sv1. split.
  - intros T. exact (same_address_shares_entry h1 req1 h2 req2 sv data cs C G I T).
  - intros T.
    assert (exists data' e,
              CacheService.cache (cacheService sv1)
              = Some (<[ cacheKey (getClientIP req1) := e ]> data')
              /\ NodeCache.t e = IPAnalyzer.now (world h1) + 300 * 1000)
      as (data' & e & S & Te).
    { unfold sv1, analyze. rewrite G.
      destruct (IPAnalyzer.analyzeIP _ _ _ _) as [a ts].
      revert G. unfold CacheService.get, CacheService.set. rewrite C.
      destruct (NodeCache.get _ _ data) as [[hit|] data']; [discriminate|].
      intros G. injection G as <-. cbn [CacheService.cache snd cacheService].
      unfold NodeCache.set. destruct (Z.eqb_spec 300 0) as [E|_]; [discriminate E|].
      eexists _, _. split; reflexivity. }
    assert (M : fst (CacheService.get (IPAnalyzer.now (world h2))
                       (cacheKey (getClientIP req2)) (cacheService sv1)) = None).
    { unfold CacheService.get, NodeCache.get. rewrite S, I, lookup_insert_eq.
      unfold NodeCache.expired. rewrite Te.
      destruct (Z.eqb_spec (IPAnalyzer.now (world h1) + 300 * 1000) 0); [lia|].
      destruct (Z.ltb_spec (IPAnalyzer.now (world h1) + 300 * 1000)
                  (IPAnalyzer.now (world h2))); [reflexivity|lia]. }
    destruct (CacheService.get (IPAnalyzer.now (world h2))
                (cacheKey (getClientIP req2)) (cacheService sv1)) as [o cs2] eqn:G2.
    cbn [fst] in M. subst o.
    exact (proj1 (analyze_miss h2 req2 sv1 cs2 G2)).
Qed.

Lemma cached_decision_window_witness :
  let w := Sample.quiet Sample.noEnv in
  let h1 := Sample.host w "r1" in
  let h2 := Sample.host (Sample.at_time (IPAnalyzer.now w + 300000) w) "r2" in
  fst (analyze h2 (Sample.request Sample.firefox)
         (snd (analyze h1 (Sample.request "curl") Sample.started)))
  = handleResult
      (fst (IPAnalyzer.analyzeIP w "203.0.113.7" (Some "curl") (torService Sample.started)))
      "r2".
Proof.
  intros w h1 h2.
  refine (proj1 (cached_decision_window h1 (Sample.request "curl") h2
                   (Sample.request Sample.firefox) Sample.started ∅
                   (snd (CacheService.get 1700000000000 "analysis:203.0.113.7"
                           (cacheService Sample.started)))
                   _ _ _ _) _);
    vm_compute; try reflexivity; discriminate.
Defined.

(** With an empty cache, as after [initializeServices] or a cache
    clear, a request is evaluated, answered from that evaluation,
    logged, and its analysis is stored for 300 seconds under the key
    of its address. *)
Theorem empty_cache_evaluates_and_stores h req sv :
  CacheService.cache (cacheService sv) = Some ∅ ->
  let a := fst (IPAnalyzer.analyzeIP (world h) (getClientIP req)
                  (Some (userAgentOf req)) (torService sv)) in
  let out := analyze h req sv in
  fst out = handleResult a (freshRequestId h)
  /\ logService (snd out)
     = LogService.logRequest (disk h) (requestData h req a) (logService sv)
  /\ CacheService.cache (cacheService (snd out))
     = Some {[ cacheKey (getClientIP req) :=
                 {| NodeCache.v := a;
                    NodeCache.t := IPAnalyzer.now (world h) + 300 * 1000 |} ]}
  /\ (forall now f, CacheService.cache
                      (cacheService (ServiceIndex.initializeServices now f)) = Some ∅)
  /\ (forall cs data, CacheService.cache cs = Some data ->
                      CacheService.cache (snd (CacheService.clear cs)) = Some ∅).
Proof.
  intros C a out.
  assert (G : CacheService.get (IPAnalyzer.now (world h)) (cacheKey (getClientIP req))
                (cacheService sv)
              = (None, {| CacheService.cache := Some ∅;
                          CacheService.stats :=
                            {| CacheService.hits := CacheService.hits (CacheService.stats (cacheService sv));
                               CacheService.misses := CacheService.misses (CacheService.stats (cacheService sv)) + 1;
                               CacheService.sets := CacheService.sets (CacheService.stats (cacheService sv)) |} |})).
  { unfold CacheService.get, NodeCache.get. rewrite C, lookup_empty. reflexivity. }
  destruct (analyze_miss h req sv _ G) as (R & L).
  split; [exact R|split; [exact L|split; [|split]]].
  - unfold out, analyze. rewrite G. fold (userAgentOf req).
    unfold a. destruct (IPAnalyzer.analyzeIP _ _ _ _) as [a' ts'].
    cbn [CacheService.set CacheService.cache fst snd cacheService].
    unfold NodeCache.set. destruct (Z.eqb_spec 300 0) as [E|_]; [discriminate E|].
    rewrite insert_empty. reflexivity.
  - reflexivity.
  - intros cs data D. unfold CacheService.clear. rewrite D. reflexivity.
Qed.

Lemma empty_cache_evaluates_and_stores_witness :
  fst (analyze (Sample.host (Sample.quiet Sample.noEnv) "r1") (Sample.request "curl")
         Sample.started)
  = handleResult
      (fst (IPAnalyzer.analyzeIP (Sample.quiet Sample.noEnv) "203.0.113.7"
              (Some "curl") (torService Sample.started)))
      "r1".
Proof.
  exact (proj1 (empty_cache_evaluates_and_stores
                  (Sample.host (Sample.quiet Sample.noEnv) "r1") (Sample.request "curl")
                  Sample.started eq_refl)).
Defined.

(** While the cache has not been started every request is evaluated
    and logged and nothing is stored. *)
Theorem unstarted_cache_evaluates_every_request h req sv :
  CacheService.cache (cacheService sv) = None ->
  let a := fst (IPAnalyzer.analyzeIP (world h) (getClientIP req)
                  (Some (userAgentOf req)) (torService sv)) in
  let out := analyze h req sv in
  fst out = handleResult a (freshRequestId h)
  /\ cacheService (snd out) = cacheService sv
  /\ logService (snd out)
     = LogService.logRequest (disk h) (requestData h req a) (logService sv).
Proof.
  intros C a out.
  assert (G : CacheService.get (IPAnalyzer.now (world h)) (cacheKey (getClientIP req))
                (cacheService sv) = (None, cacheService sv)).
  { unfold CacheService.get. rewrite C. reflexivity. }
  destruct (analyze_miss h req sv _ G) as (R & L).
  split; [exact R|split; [|exact L]].
  unfold out, analyze. rewrite G.
  destruct (IPAnalyzer.analyzeIP _ _ _ _) as [a' ts'].
  unfold CacheService.set. rewrite C. reflexivity.
Qed.

Lemma unstarted_cache_evaluates_every_request_witness :
  let sv := {| torService := TorService.init; cacheService := CacheService.init;
               logService := LogService.init |} in
  cacheService (snd (analyze (Sample.host (Sample.quiet Sample.noEnv) "r1")
                       (Sample.request "curl") sv))
  = CacheService.init.
Proof.
  exact (proj1 (proj2 (unstarted_cache_evaluates_every_request
                         (Sample.host (Sample.quiet Sample.noEnv) "r1")
                         (Sample.request "curl")
                         {| torService := TorService.init; cacheService := CacheService.init;
                            logService := LogService.init |} eq_refl))).
Defined.

End MiddlewareMore.
